(** * Estimate.ai cost estimator: the calculation layer of [app_cost_only.py]

    A shallow embedding of the arithmetic core of the Streamlit application:
    the rate tables, the three calculators [calculate_gfa],
    [calculate_site_difficulty] and [calculate_labor_hours], and the body of
    the "Generate Estimate" branch (labor cost, feature record, model call,
    cost breakdown, risk components).

    Modelling conventions.
    - Python [int]s are [Z].  Every numeric form field is created by
      [st.number_input] or [st.slider] with integer bounds, so length,
      breadth, storeys, the prices, the labor rate, the worker count and the
      permit duration are integers.
    - Python [float]s are read twice.
      The exact reading takes a float for the rational [Q] its decimal
      literal denotes ([1.05] is 105/100) and [+], [*], [/] for the field
      operations; equality of amounts is [Qeq] ([==]).  It carries the
      statements that are formulas of the program, orders and bounds, and
      the control flow (which lookup or division fails, and when).
      The binary64 reading ([Module Binary64]) takes a float for an IEEE-754
      double ([PrimFloat.float]): a literal is the double nearest to it and
      every operation rounds to nearest-even, as CPython does.  It carries
      the statements about the very value a calculator returns.
    - A [dict] is a finite map [gmap string V]; subscripting a missing key
      raises [KeyError].  Float division by zero raises [ZeroDivisionError];
      an [int] too large for a double raises [OverflowError] when it meets a
      float.  Exceptions are values of [result].
    - A dict literal whose order is observable (the feature row handed to
      pandas, the risk components handed to the charts) is an association
      list in insertion order. *)

From Stdlib Require Import PrimFloat.
From Stdlib Require SpecFloat FloatOps FloatAxioms Uint63.
From Stdlib Require Import ZArith QArith Qfield Lqa Lia String List.
From stdpp Require Import gmap strings list fin_maps.

Set Warnings "-inexact-float".

Open Scope string_scope.
Open Scope Q_scope.

(** ** Exceptions and fallible computations *)

Inductive exn : Type :=
| KeyError (key : string)
| ZeroDivisionError
| IndexError
| OverflowError.

Inductive result (A : Type) : Type :=
| Ok (a : A)
| Raise (e : exn).

Arguments Ok {A} a.
Arguments Raise {A} e.

#[export] Instance result_ret : MRet result := fun A a => Ok a.
#[export] Instance result_bind : MBind result := fun A B f m =>
  match m with
  | Ok a => f a
  | Raise e => Raise e
  end.

Definition raises {A : Type} (m : result A) : Prop := ∃ e, m = Raise e.
Definition returns {A : Type} (m : result A) : Prop := ∃ a, m = Ok a.

(** [d[k]] on a dict. *)
Definition getitem {V : Type} (d : gmap string V) (k : string) : result V :=
  match d !! k with
  | Some v => Ok v
  | None => Raise (KeyError k)
  end.

(** [d[k1][k2]] on a dict of dicts. *)
Definition getitem2 {V : Type} (d : gmap string (gmap string V))
    (k1 k2 : string) : result V :=
  inner ← getitem d k1; getitem inner k2.

(** [a / b] on floats. *)
Definition truediv (a b : Q) : result Q :=
  if Qeq_bool b 0 then Raise ZeroDivisionError else Ok (a / b).

(** The builtin [sum]: a left fold that starts from [0]. *)
Definition sum (xs : list Q) : Q := fold_left Qplus xs 0.

(** [xs[0]] on a sequence. *)
Definition first {A : Type} (xs : list A) : result A :=
  match xs with
  | x :: _ => Ok x
  | [] => Raise IndexError
  end.

(** ** Constants (lines 7-63) *)

Definition MATERIAL_RATES : gmap string (gmap string Q) :=
  list_to_map
    [ ("Residential",
       list_to_map [("cement", 0.5); ("blocks", 10); ("steel", 0.025);
                    ("sand", 0.05); ("granite", 0.03)]);
      ("Commercial",
       list_to_map [("cement", 0.7); ("blocks", 15); ("steel", 0.04);
                    ("sand", 0.07); ("granite", 0.05)]);
      ("Industrial",
       list_to_map [("cement", 1.0); ("blocks", 20); ("steel", 0.06);
                    ("sand", 0.10); ("granite", 0.08)]) ].

Definition SHAPE_COMPLEXITY : gmap string Q :=
  list_to_map
    [ ("Rectangular", 1.0); ("Square", 1.05); ("L-Shaped", 1.15);
      ("U-Shaped", 1.2); ("Circular", 1.25) ].

Definition PLANT_RATES : gmap string Q :=
  list_to_map
    [ ("Residential", 0.08); ("Commercial", 0.12); ("Industrial", 0.18) ].

Definition LABOR_PRODUCTIVITY_RATES : gmap string (gmap string Q) :=
  list_to_map
    [ ("Residential",
       list_to_map [("foundation", 1.2); ("structural", 2.0); ("finishing", 1.5)]);
      ("Commercial",
       list_to_map [("foundation", 1.5); ("structural", 2.5); ("finishing", 2.0)]);
      ("Industrial",
       list_to_map [("foundation", 2.0); ("structural", 3.0); ("finishing", 2.5)]) ].

Definition EFFICIENCY_FACTORS : gmap string (gmap string Q) :=
  list_to_map
    [ ("crew_size",
       list_to_map [("Small", 0.9); ("Medium", 1.0); ("Large", 1.1)]);
      ("weather",
       list_to_map [("Good", 1.0); ("Average", 0.9); ("Poor", 0.8)]) ].

Definition RISK_FACTORS : gmap string Q :=
  list_to_map [ ("prelim", 0.05); ("cont", 0.075); ("design", 0.02) ].

Definition CIRCULATION_SPACE : Q := 0.20.
Definition STANDARD_WORK_HOURS : Z := 8.
Definition OVERHEAD_PROFIT : Q := 0.15.

(** ** The calculators (lines 91-113), in the exact reading *)

(** The doubles these three functions return are given by their namesakes
    in [Module Binary64] below. *)

Definition calculate_gfa (length breadth storeys : Z) (shape : string)
    : result Q :=
  let base_area := (length * breadth * storeys)%Z in
  shape_multiplier ← getitem SHAPE_COMPLEXITY shape;
  mret (inject_Z base_area * shape_multiplier).

Definition soil_map : gmap string Q :=
  list_to_map [ ("Rocky", 1.5); ("Sandy", 1.2); ("Clay", 1.0) ].

Definition access_map : gmap string Q :=
  list_to_map [ ("Poor", 1.4); ("Average", 1.1); ("Good", 1.0) ].

Definition calculate_site_difficulty (soil access : string) : result Q :=
  s ← getitem soil_map soil;
  a ← getitem access_map access;
  mret (s * a).

(** The key selected by the conditional expression of lines 108-110;
    [15 <= crew_size <= 30] is the chained comparison. *)
Definition crew_size_key (crew_size : Z) : string :=
  if ((15 <=? crew_size)%Z && (crew_size <=? 30)%Z)%bool then "Medium"
  else if (crew_size >? 30)%Z then "Large"
  else "Small".

Definition crew_efficiency (crew_size : Z) : result Q :=
  getitem2 EFFICIENCY_FACTORS "crew_size" (crew_size_key crew_size).

Definition weather_efficiency (weather_condition : string) : result Q :=
  getitem2 EFFICIENCY_FACTORS "weather" weather_condition.

Definition calculate_labor_hours (gfa : Q) (building_type : string)
    (crew_size : Z) (weather_condition : string) : result Q :=
  foundation ← getitem2 LABOR_PRODUCTIVITY_RATES building_type "foundation";
  structural ← getitem2 LABOR_PRODUCTIVITY_RATES building_type "structural";
  finishing ← getitem2 LABOR_PRODUCTIVITY_RATES building_type "finishing";
  let base_hours := sum [foundation; structural; finishing] * gfa in
  ce ← crew_efficiency crew_size;
  we ← weather_efficiency weather_condition;
  truediv base_hours (ce * we).

(** ** The estimate request (lines 120-250) *)

(** The form fields, with the types the widgets deliver. *)
Record ProjectInput : Type := {
  length : Z;
  breadth : Z;
  storeys : Z;
  shape : string;
  building_type : string;
  location : string;
  soil : string;
  access : string;
  weather : string;
  cement : Z;
  blocks : Z;
  steel : Z;
  sand : Z;
  granite : Z;
  labor_rate : Z;
  workers : Z;
  permit : Z
}.

(** The widget defaults (the third argument of each [number_input], the
    [slider] default, the first option of each [selectbox]). *)
Definition default_input : ProjectInput := {|
  length := 20; breadth := 15; storeys := 2; shape := "Rectangular";
  building_type := "Residential"; location := "Urban"; soil := "Rocky";
  access := "Good"; weather := "Good";
  cement := 9800; blocks := 600; steel := 850000; sand := 35000;
  granite := 19500; labor_rate := 1000; workers := 20; permit := 3
|}.

(** The values the widgets of lines 120-161 can deliver: [number_input] and
    [slider] keep the value within their bounds, [selectbox] offers the
    listed options ([list(d.keys())] for a table [d]). *)
Definition within (lo hi v : Z) : bool := ((lo <=? v)%Z && (v <=? hi)%Z)%bool.

Definition form_input (p : ProjectInput) : bool :=
  (within 10 100 (length p) && within 10 100 (breadth p) &&
   within 1 10 (storeys p) &&
   bool_decide (shape p ∈ dom SHAPE_COMPLEXITY) &&
   bool_decide (building_type p ∈ dom MATERIAL_RATES) &&
   bool_decide (location p ∈ ["Urban"; "Suburban"; "Rural"]) &&
   bool_decide (soil p ∈ ["Rocky"; "Sandy"; "Clay"]) &&
   bool_decide (access p ∈ ["Good"; "Average"; "Poor"]) &&
   bool_decide (weather p ∈ ["Good"; "Average"; "Poor"]) &&
   within 9500 10500 (cement p) && within 500 750 (blocks p) &&
   within 700000 1250000 (steel p) && within 30000 50000 (sand p) &&
   within 19000 40000 (granite p) && within 500 3000 (labor_rate p) &&
   within 10 100 (workers p) && within 1 24 (permit p))%bool.

(** A cell of the single-row data frame. *)
Inductive pyval : Type :=
| PyInt (z : Z)
| PyFloat (q : Q)
| PyStr (s : string).

(** Line 172. *)
Definition labor_cost (labor_hours : Q) (labor_rate : Z) : Q :=
  labor_hours * inject_Z labor_rate * (1 + OVERHEAD_PROFIT).

(** Line 177. *)
Definition vertical_complexity (storeys : Z) : Q :=
  inject_Z storeys * 0.25.

(** The dict literal of lines 180-202, in insertion order. *)
Definition input_data (p : ProjectInput)
    (labor_cost site_difficulty shape_complexity vertical_complexity : Q)
    : list (string * pyval) :=
  [ ("Length", PyInt (length p));
    ("Breadth", PyInt (breadth p));
    ("Storeys", PyInt (storeys p));
    ("Shape", PyStr (shape p));
    ("Type", PyStr (building_type p));
    ("Location", PyStr (location p));
    ("Soil", PyStr (soil p));
    ("Access", PyStr (access p));
    ("Weather", PyStr (weather p));
    ("Cement_Price", PyInt (cement p));
    ("Block_Price", PyInt (blocks p));
    ("Steel_Price", PyInt (steel p));
    ("Sand_Price", PyInt (sand p));
    ("Granite_Price", PyInt (granite p));
    ("Labor_Rate", PyInt (labor_rate p));
    ("Labor_Cost", PyFloat labor_cost);
    ("Workers", PyInt (workers p));
    ("Permit_Months", PyInt (permit p));
    ("Site_Difficulty", PyFloat site_difficulty);
    ("Shape_Complexity", PyFloat shape_complexity);
    ("Vertical_Complexity", PyFloat vertical_complexity) ].

(** The keys of that literal, that is the columns of the frame. *)
Definition feature_names : list string :=
  [ "Length"; "Breadth"; "Storeys"; "Shape"; "Type"; "Location"; "Soil";
    "Access"; "Weather"; "Cement_Price"; "Block_Price"; "Steel_Price";
    "Sand_Price"; "Granite_Price"; "Labor_Rate"; "Labor_Cost"; "Workers";
    "Permit_Months"; "Site_Difficulty"; "Shape_Complexity";
    "Vertical_Complexity" ].

(** One summand of lines 235-239:
    [price * MATERIAL_RATES[building_type][material] * current_gfa]. *)
Definition material_line (price : Z) (building_type material : string)
    (current_gfa : Q) : result Q :=
  rate ← getitem2 MATERIAL_RATES building_type material;
  mret (inject_Z price * rate * current_gfa).

(** Lines 234-240. *)
Definition material_cost (building_type : string)
    (cement blocks steel sand granite : Z) (current_gfa : Q) : result Q :=
  c ← material_line cement building_type "cement" current_gfa;
  b ← material_line blocks building_type "blocks" current_gfa;
  s ← material_line steel building_type "steel" current_gfa;
  d ← material_line sand building_type "sand" current_gfa;
  g ← material_line granite building_type "granite" current_gfa;
  mret (sum [c; b; s; d; g]).

(** Line 242. *)
Definition plant_cost (material_cost labor_cost : Q) (building_type : string)
    : result Q :=
  rate ← getitem PLANT_RATES building_type;
  mret ((material_cost + labor_cost) * rate).

(** Line 243. *)
Definition base_cost (material_cost labor_cost plant_cost : Q) : Q :=
  material_cost + labor_cost + plant_cost.

(** Lines 246-250. *)
Definition risk_components (base_cost : Q) : result (list (string * Q)) :=
  cont ← getitem RISK_FACTORS "cont";
  prelim ← getitem RISK_FACTORS "prelim";
  design ← getitem RISK_FACTORS "design";
  mret [ ("Contingencies", base_cost * cont);
         ("Preliminaries", base_cost * prelim);
         ("Design Risk", base_cost * design) ].

(** The values the submit branch computes. *)
Record Estimate : Type := {
  est_gfa : Q;
  est_labor_hours : Q;
  est_labor_productivity : Q;
  est_project_duration : Q;
  est_labor_cost : Q;
  est_input_data : list (string * pyval);
  est_total_cost : Q;
  est_material_cost : Q;
  est_plant_cost : Q;
  est_base_cost : Q;
  est_risk_components : list (string * Q)
}.

Section Estimator.

(** The two unpickled artifacts are opaque: [preprocessor.transform] maps
    the one-row frame to some processed form, [model.predict] maps that to a
    sequence of predictions. *)
Context {Processed : Type}.
Variable preprocessor_transform : list (list (string * pyval)) → Processed.
Variable model_predict : Processed → list Q.

(** Line 128 followed by the computations of the body of
    [if submit_button:], in program order.  The rendering calls
    ([st.markdown], the plotly charts, the metrics panel) only display these
    values and are left out. *)
Definition estimate (p : ProjectInput) : result Estimate :=
  current_gfa ← calculate_gfa (length p) (breadth p) (storeys p) (shape p);
  labor_hours ← calculate_labor_hours current_gfa (building_type p)
                   (workers p) (weather p);
  labor_productivity ← truediv current_gfa
                          (labor_hours * inject_Z (workers p));
  project_duration ← truediv labor_hours
                        (inject_Z (workers p * STANDARD_WORK_HOURS));
  let labor_cost := labor_cost labor_hours (labor_rate p) in
  site_difficulty ← calculate_site_difficulty (soil p) (access p);
  shape_complexity ← getitem SHAPE_COMPLEXITY (shape p);
  let vertical_complexity := vertical_complexity (storeys p) in
  let input_data :=
    input_data p labor_cost site_difficulty shape_complexity
      vertical_complexity in
  let processed := preprocessor_transform [input_data] in
  total_cost ← first (model_predict processed);
  material_cost ← material_cost (building_type p) (cement p) (blocks p)
                     (steel p) (sand p) (granite p) current_gfa;
  plant_cost ← plant_cost material_cost labor_cost (building_type p);
  let base_cost := base_cost material_cost labor_cost plant_cost in
  risk_components ← risk_components base_cost;
  mret {| est_gfa := current_gfa;
          est_labor_hours := labor_hours;
          est_labor_productivity := labor_productivity;
          est_project_duration := project_duration;
          est_labor_cost := labor_cost;
          est_input_data := input_data;
          est_total_cost := total_cost;
          est_material_cost := material_cost;
          est_plant_cost := plant_cost;
          est_base_cost := base_cost;
          est_risk_components := risk_components |}.

End Estimator.

(** ** The charts (lines 253-283) *)

(** A plotly figure, as far as its data goes: the labels ([names] of a pie,
    [x] of a bar chart) and the values ([values], [y]). *)
Record Figure : Type := {
  fig_names : list string;
  fig_values : list Q
}.

(** Lines 255-260: the cost distribution pie. *)
Definition fig_main (material_cost labor_cost plant_cost : Q)
    (risk_components : list (string * Q)) : Figure :=
  {| fig_names := ["Materials"; "Labor"; "Plant"; "Risks"];
     fig_values := [material_cost; labor_cost; plant_cost;
                    sum (risk_components.*2)] |}.

(** Lines 264-269: the risk pie, from the keys and the values of the dict. *)
Definition fig_risk (risk_components : list (string * Q)) : Figure :=
  {| fig_names := risk_components.*1;
     fig_values := risk_components.*2 |}.

(** Lines 273-282: the labor hours by phase. *)
Definition fig_productivity (building_type : string) (current_gfa : Q)
    : result Figure :=
  foundation ← getitem2 LABOR_PRODUCTIVITY_RATES building_type "foundation";
  structural ← getitem2 LABOR_PRODUCTIVITY_RATES building_type "structural";
  finishing ← getitem2 LABOR_PRODUCTIVITY_RATES building_type "finishing";
  mret {| fig_names := ["Foundation"; "Structural"; "Finishing"];
          fig_values := [foundation * current_gfa;
                         structural * current_gfa;
                         finishing * current_gfa] |}.

(** The three figures drawn after the breakdown, in program order. *)
Definition charts (p : ProjectInput) (e : Estimate)
    : result (Figure * Figure * Figure) :=
  let main := fig_main (est_material_cost e) (est_labor_cost e)
                (est_plant_cost e) (est_risk_components e) in
  let risk := fig_risk (est_risk_components e) in
  productivity ← fig_productivity (building_type p) (est_gfa e);
  mret (main, risk, productivity).

(** ** The binary64 reading of the float-only calculators *)

Module Binary64.

(** An [int] meeting a float is converted to the nearest double
    (round-half-even); CPython raises [OverflowError] when the integer is
    too large for a finite double. *)
Definition of_int (z : Z) : result float :=
  let f := FloatOps.SF2Prim
             (SpecFloat.binary_normalize FloatOps.prec FloatOps.emax z 0
                false) in
  if is_infinity f then Raise OverflowError else Ok f.

(** The rational a finite double stands for. *)
Definition to_Q (f : float) : option Q :=
  match FloatOps.Prim2SF f with
  | SpecFloat.S754_zero _ => Some 0
  | SpecFloat.S754_finite s m e =>
      let mz := if s then Zneg m else Zpos m in
      Some (match e with
            | Z0 => inject_Z mz
            | Zpos p => inject_Z (mz * Z.pow_pos 2 p)
            | Zneg p => mz # Pos.pow 2 p
            end)
  | _ => None
  end.

(** The double nearest to [n / d] for integers [0 <= n, d < 2^53]: both are
    doubles themselves and the division rounds their exact quotient. *)
Definition nearest (n d : Z) : float :=
  (of_uint63 (Uint63.of_Z n) / of_uint63 (Uint63.of_Z d))%float.

(** The builtin [sum] on floats; its start value [0] becomes [0.0]. *)
Definition sum (xs : list float) : float := fold_left add xs 0%float.

(** Lines 13-19. *)
Definition SHAPE_COMPLEXITY : gmap string float :=
  list_to_map
    [ ("Rectangular", 1.0%float); ("Square", 1.05%float);
      ("L-Shaped", 1.15%float); ("U-Shaped", 1.2%float);
      ("Circular", 1.25%float) ].

(** Line 60. *)
Definition RISK_FACTORS : gmap string float :=
  list_to_map
    [ ("prelim", 0.05%float); ("cont", 0.075%float);
      ("design", 0.02%float) ].

(** Lines 91-94: [base_area] is an exact integer, the shape is looked up,
    and the product converts [base_area] and multiplies once. *)
Definition calculate_gfa (length breadth storeys : Z) (shape : string)
    : result float :=
  let base_area := (length * breadth * storeys)%Z in
  shape_multiplier ← getitem SHAPE_COMPLEXITY shape;
  base ← of_int base_area;
  mret (base * shape_multiplier)%float.

(** Lines 96-99. *)
Definition soil_map : gmap string float :=
  list_to_map
    [ ("Rocky", 1.5%float); ("Sandy", 1.2%float); ("Clay", 1.0%float) ].

Definition access_map : gmap string float :=
  list_to_map
    [ ("Poor", 1.4%float); ("Average", 1.1%float); ("Good", 1.0%float) ].

Definition calculate_site_difficulty (soil access : string) : result float :=
  s ← getitem soil_map soil;
  a ← getitem access_map access;
  mret (s * a)%float.

(** Lines 246-250. *)
Definition risk_components (base_cost : float)
    : result (list (string * float)) :=
  cont ← getitem RISK_FACTORS "cont";
  prelim ← getitem RISK_FACTORS "prelim";
  design ← getitem RISK_FACTORS "design";
  mret [ ("Contingencies", (base_cost * cont)%float);
         ("Preliminaries", (base_cost * prelim)%float);
         ("Design Risk", (base_cost * design)%float) ].

(** Lines 28-58. *)
Definition LABOR_PRODUCTIVITY_RATES : gmap string (gmap string float) :=
  list_to_map
    [ ("Residential",
       list_to_map [("foundation", 1.2%float); ("structural", 2.0%float);
                    ("finishing", 1.5%float)]);
      ("Commercial",
       list_to_map [("foundation", 1.5%float); ("structural", 2.5%float);
                    ("finishing", 2.0%float)]);
      ("Industrial",
       list_to_map [("foundation", 2.0%float); ("structural", 3.0%float);
                    ("finishing", 2.5%float)]) ].

Definition EFFICIENCY_FACTORS : gmap string (gmap string float) :=
  list_to_map
    [ ("crew_size",
       list_to_map [("Small", 0.9%float); ("Medium", 1.0%float);
                    ("Large", 1.1%float)]);
      ("weather",
       list_to_map [("Good", 1.0%float); ("Average", 0.9%float);
                    ("Poor", 0.8%float)]) ].

(** [a / b] on doubles; a zero divisor of either sign raises. *)
Definition truediv (a b : float) : result float :=
  if (b =? 0)%float then Raise ZeroDivisionError else Ok (a / b)%float.

Definition crew_efficiency (crew_size : Z) : result float :=
  getitem2 EFFICIENCY_FACTORS "crew_size" (crew_size_key crew_size).

Definition weather_efficiency (weather_condition : string) : result float :=
  getitem2 EFFICIENCY_FACTORS "weather" weather_condition.

(** Lines 101-113. *)
Definition calculate_labor_hours (gfa : float) (building_type : string)
    (crew_size : Z) (weather_condition : string) : result float :=
  foundation ← getitem2 LABOR_PRODUCTIVITY_RATES building_type "foundation";
  structural ← getitem2 LABOR_PRODUCTIVITY_RATES building_type "structural";
  finishing ← getitem2 LABOR_PRODUCTIVITY_RATES building_type "finishing";
  let base_hours := (sum [foundation; structural; finishing] * gfa)%float in
  ce ← crew_efficiency crew_size;
  we ← weather_efficiency weather_condition;
  truediv base_hours (ce * we)%float.

(** The checks behind the accuracy of [calculate_gfa] on the form's range:
    for the footprint [area] and a multiplier stored as [m] and written
    [num / den], the conversion of [area] is finite and [area * m] is the
    double nearest to [area * num / den] or one of its two neighbours. *)
Definition gfa_near (num den : Z) (m : float) (area : Z) : bool :=
  let f := of_uint63 (Uint63.of_Z area) in
  let v := (f * m)%float in
  let e := nearest (area * num) den in
  (negb (is_infinity f) && (next_down e <=? v)%float &&
   (v <=? next_up e)%float)%bool.

Definition gfa_exact (area : Z) : bool :=
  let f := of_uint63 (Uint63.of_Z area) in
  ((f * 1.0)%float =? nearest (area * 10) 10)%float.

Definition gfa_check (area : Z) : bool :=
  (gfa_near 10 10 1.0%float area && gfa_exact area &&
   gfa_near 105 100 1.05%float area && gfa_near 115 100 1.15%float area &&
   gfa_near 12 10 1.2%float area && gfa_near 125 100 1.25%float area)%bool.

Fixpoint all_from (n : nat) (a : Z) (P : Z → bool) : bool :=
  match n with
  | O => true
  | S n' => (P a && all_from n' (a + 1)%Z P)%bool
  end.

End Binary64.

(** * Properties *)

(** Case analysis on a key that a literal table maps to something. *)
Ltac table_cases H :=
  apply elem_of_list_to_map_2 in H;
  repeat (apply elem_of_cons in H as [H|H];
          [injection H as -> ->|]);
  try (apply elem_of_nil in H; destruct H).

(** ** The [result] monad *)

Lemma bind_Ok {A B : Type} (f : A → result B) (a : A) : (Ok a ≫= f) = f a.
Proof. reflexivity. Qed.

Lemma bind_Raise {A B : Type} (f : A → result B) (e : exn) :
  (Raise e ≫= f) = Raise e.
Proof. reflexivity. Qed.

Lemma returns_not_raises {A : Type} (m : result A) : returns m ↔ ¬ raises m.
Proof.
  unfold returns, raises. destruct m as [a|e]; split.
  - intros _ [e He]. discriminate He.
  - intros _. exists a. reflexivity.
  - intros [a Ha]. discriminate Ha.
  - intros Hn. exfalso. apply Hn. exists e. reflexivity.
Qed.

(** ** Subscripting *)

Lemma getitem_Some {V : Type} (d : gmap string V) (k : string) (v : V) :
  d !! k = Some v → getitem d k = Ok v.
Proof. intros H. unfold getitem. rewrite H. reflexivity. Qed.

Lemma getitem_None {V : Type} (d : gmap string V) (k : string) :
  d !! k = None → getitem d k = Raise (KeyError k).
Proof. intros H. unfold getitem. rewrite H. reflexivity. Qed.

Lemma getitem_Ok_iff {V : Type} (d : gmap string V) (k : string) (v : V) :
  getitem d k = Ok v ↔ d !! k = Some v.
Proof.
  split; [|apply getitem_Some].
  unfold getitem. destruct (d !! k); intros H; inversion H; reflexivity.
Qed.

Lemma getitem_Raise_iff {V : Type} (d : gmap string V) (k : string) (e : exn) :
  getitem d k = Raise e ↔ d !! k = None ∧ e = KeyError k.
Proof.
  unfold getitem. destruct (d !! k); split.
  - discriminate.
  - intros [H _]. discriminate H.
  - intros H. inversion H. split; reflexivity.
  - intros [_ ->]. reflexivity.
Qed.

Lemma getitem2_Some {V : Type} (d : gmap string (gmap string V))
    (k1 k2 : string) (inner : gmap string V) (v : V) :
  d !! k1 = Some inner → inner !! k2 = Some v → getitem2 d k1 k2 = Ok v.
Proof.
  intros H1 H2. unfold getitem2. rewrite (getitem_Some _ _ _ H1), bind_Ok.
  apply getitem_Some, H2.
Qed.

Lemma getitem2_None {V : Type} (d : gmap string (gmap string V))
    (k1 k2 : string) :
  d !! k1 = None → getitem2 d k1 k2 = Raise (KeyError k1).
Proof.
  intros H1. unfold getitem2. rewrite (getitem_None _ _ H1). reflexivity.
Qed.

(** ** Division *)

Lemma truediv_nonzero (a b : Q) : ¬ b == 0 → truediv a b = Ok (a / b).
Proof.
  intros Hb. unfold truediv.
  destruct (Qeq_bool b 0) eqn:E; [|reflexivity].
  apply Qeq_bool_iff in E. contradiction.
Qed.

Lemma truediv_zero (a b : Q) : b == 0 → truediv a b = Raise ZeroDivisionError.
Proof.
  intros Hb. unfold truediv. apply Qeq_bool_iff in Hb. rewrite Hb. reflexivity.
Qed.

Lemma inject_Z_pos (z : Z) : (0 < z)%Z → 0 < inject_Z z.
Proof. intros H. change 0 with (inject_Z 0). rewrite <- Zlt_Qlt. exact H. Qed.

Lemma sum3 (a b c : Q) : sum [a; b; c] == a + b + c.
Proof. unfold sum. simpl. ring. Qed.

Lemma sum5 (a b c d e : Q) : sum [a; b; c; d; e] == a + b + c + d + e.
Proof. unfold sum. simpl. ring. Qed.

(** ** Gross floor area *)

Lemma calculate_gfa_Some (l b s : Z) (shape : string) (m : Q) :
  SHAPE_COMPLEXITY !! shape = Some m →
  calculate_gfa l b s shape = Ok (inject_Z (l * b * s) * m).
Proof.
  intros H. unfold calculate_gfa. rewrite (getitem_Some _ _ _ H). reflexivity.
Qed.

Lemma calculate_gfa_None (l b s : Z) (shape : string) :
  SHAPE_COMPLEXITY !! shape = None →
  calculate_gfa l b s shape = Raise (KeyError shape).
Proof.
  intros H. unfold calculate_gfa. rewrite (getitem_None _ _ H). reflexivity.
Qed.

(** ** Site difficulty *)

Lemma calculate_site_difficulty_Some (soil access : string) (s a : Q) :
  soil_map !! soil = Some s → access_map !! access = Some a →
  calculate_site_difficulty soil access = Ok (s * a).
Proof.
  intros Hs Ha. unfold calculate_site_difficulty.
  rewrite (getitem_Some _ _ _ Hs), bind_Ok, (getitem_Some _ _ _ Ha).
  reflexivity.
Qed.

Lemma calculate_site_difficulty_no_soil (soil access : string) :
  soil_map !! soil = None →
  calculate_site_difficulty soil access = Raise (KeyError soil).
Proof.
  intros Hs. unfold calculate_site_difficulty.
  rewrite (getitem_None _ _ Hs). reflexivity.
Qed.

Lemma calculate_site_difficulty_no_access (soil access : string) (s : Q) :
  soil_map !! soil = Some s → access_map !! access = None →
  calculate_site_difficulty soil access = Raise (KeyError access).
Proof.
  intros Hs Ha. unfold calculate_site_difficulty.
  rewrite (getitem_Some _ _ _ Hs), bind_Ok, (getitem_None _ _ Ha).
  reflexivity.
Qed.

(** ** Labor hours *)

Lemma Qdiv_pos (a d : Q) : 0 < a → 0 < d → 0 < a / d.
Proof. intros Ha Hd. apply Qlt_shift_div_l; [exact Hd|]. lra. Qed.

Lemma Qdiv_antitone (a d1 d2 : Q) :
  0 < a → 0 < d1 → d1 < d2 → a / d2 < a / d1.
Proof.
  intros Ha H1 H2.
  assert (Hq : 0 < a / d1) by (apply Qdiv_pos; assumption).
  assert (He : d1 * (a / d1) == a) by (apply Qmult_div_r; lra).
  apply Qlt_shift_div_r; [lra|]. nra.
Qed.

(** The crew efficiency is the step function of the crew size. *)
Lemma crew_efficiency_step (c : Z) :
  ((c <= 14)%Z → crew_efficiency c = Ok 0.9) ∧
  ((15 <= c <= 30)%Z → crew_efficiency c = Ok 1.0) ∧
  ((30 < c)%Z → crew_efficiency c = Ok 1.1).
Proof.
  unfold crew_efficiency, crew_size_key.
  destruct (Z.leb_spec 15 c), (Z.leb_spec c 30), (Z.gtb_spec c 30);
    simpl; repeat split; intros; try lia; reflexivity.
Qed.

Lemma crew_efficiency_returns (c : Z) :
  ∃ ce, crew_efficiency c = Ok ce ∧ 0.9 <= ce ∧ ce <= 1.1.
Proof.
  destruct (crew_efficiency_step c) as (Hs & Hm & Hl).
  destruct (Z_le_gt_dec c 14) as [H|H].
  - exists 0.9. split; [apply Hs, H|]. split; lra.
  - destruct (Z_le_gt_dec c 30) as [H'|H'].
    + exists 1.0. split; [apply Hm; lia|]. split; lra.
    + exists 1.1. split; [apply Hl; lia|]. split; lra.
Qed.

(** The weather efficiency is the entry of the weather table. *)
Lemma weather_efficiency_Ok (w : string) (we : Q) :
  weather_efficiency w = Ok we ↔
  (w, we) ∈ [("Good", 1.0); ("Average", 0.9); ("Poor", 0.8)].
Proof.
  unfold weather_efficiency, getitem2.
  change (getitem EFFICIENCY_FACTORS "weather")
    with (Ok (list_to_map [("Good", 1.0); ("Average", 0.9); ("Poor", 0.8)]
                : gmap string Q)).
  rewrite bind_Ok, getitem_Ok_iff. split.
  - apply elem_of_list_to_map_2.
  - intros H.
    repeat (apply elem_of_cons in H as [H|H]; [injection H as -> ->; reflexivity|]).
    apply elem_of_nil in H. destruct H.
Qed.

Lemma weather_efficiency_Raise (w : string) (e : exn) :
  weather_efficiency w = Raise e → e = KeyError w.
Proof.
  unfold weather_efficiency, getitem2.
  change (getitem EFFICIENCY_FACTORS "weather")
    with (Ok (list_to_map [("Good", 1.0); ("Average", 0.9); ("Poor", 0.8)]
                : gmap string Q)).
  rewrite bind_Ok, getitem_Raise_iff. intros [_ ->]. reflexivity.
Qed.

Lemma weather_efficiency_bounds (w : string) (we : Q) :
  weather_efficiency w = Ok we → 0.8 <= we ∧ we <= 1.
Proof.
  intros H. apply weather_efficiency_Ok in H.
  repeat (apply elem_of_cons in H as [H|H]; [injection H as -> ->; split; lra|]).
  apply elem_of_nil in H. destruct H.
Qed.

(** Every building type of the productivity table has its three phases,
    each with a positive rate. *)
Lemma labor_rates_phases (bt : string) (rates : gmap string Q) :
  LABOR_PRODUCTIVITY_RATES !! bt = Some rates →
  ∃ f s fi,
    rates !! "foundation" = Some f ∧ rates !! "structural" = Some s ∧
    rates !! "finishing" = Some fi ∧ 0 < f ∧ 0 < s ∧ 0 < fi.
Proof.
  intros H. table_cases H;
    (do 3 eexists; split; [reflexivity|]; split; [reflexivity|];
     split; [reflexivity|]; repeat split; lra).
Qed.

Lemma calculate_labor_hours_Some (gfa : Q) (bt : string) (c : Z) (w : string)
    (rates : gmap string Q) (f s fi ce we : Q) :
  LABOR_PRODUCTIVITY_RATES !! bt = Some rates →
  rates !! "foundation" = Some f →
  rates !! "structural" = Some s →
  rates !! "finishing" = Some fi →
  crew_efficiency c = Ok ce →
  weather_efficiency w = Ok we →
  ¬ ce * we == 0 →
  calculate_labor_hours gfa bt c w = Ok (sum [f; s; fi] * gfa / (ce * we)).
Proof.
  intros Hbt Hf Hs Hfi Hce Hwe Hnz. unfold calculate_labor_hours.
  rewrite (getitem2_Some _ _ _ _ _ Hbt Hf), bind_Ok.
  rewrite (getitem2_Some _ _ _ _ _ Hbt Hs), bind_Ok.
  rewrite (getitem2_Some _ _ _ _ _ Hbt Hfi), bind_Ok.
  cbv zeta. rewrite Hce, bind_Ok, Hwe, bind_Ok.
  apply truediv_nonzero, Hnz.
Qed.

Lemma calculate_labor_hours_no_type (gfa : Q) (bt : string) (c : Z)
    (w : string) :
  LABOR_PRODUCTIVITY_RATES !! bt = None →
  calculate_labor_hours gfa bt c w = Raise (KeyError bt).
Proof.
  intros Hbt. unfold calculate_labor_hours.
  rewrite (getitem2_None _ _ "foundation" Hbt). reflexivity.
Qed.

Lemma calculate_labor_hours_no_weather (gfa : Q) (bt : string) (c : Z)
    (w : string) (rates : gmap string Q) (e : exn) :
  LABOR_PRODUCTIVITY_RATES !! bt = Some rates →
  weather_efficiency w = Raise e →
  calculate_labor_hours gfa bt c w = Raise (KeyError w).
Proof.
  intros Hbt Hw.
  destruct (labor_rates_phases _ _ Hbt) as (f & s & fi & Hf & Hs & Hfi & _).
  destruct (crew_efficiency_returns c) as (ce & Hce & _).
  unfold calculate_labor_hours.
  rewrite (getitem2_Some _ _ _ _ _ Hbt Hf), bind_Ok.
  rewrite (getitem2_Some _ _ _ _ _ Hbt Hs), bind_Ok.
  rewrite (getitem2_Some _ _ _ _ _ Hbt Hfi), bind_Ok.
  cbv zeta. rewrite Hce, bind_Ok.
  rewrite (weather_efficiency_Raise _ _ Hw) in Hw. rewrite Hw. reflexivity.
Qed.

(** The divisor of line 113 is at least 0.9 x 0.8. *)
Lemma divisor_bound (c : Z) (w : string) (we : Q) :
  weather_efficiency w = Ok we →
  ∃ ce, crew_efficiency c = Ok ce ∧ 0.72 <= ce * we ∧ 0 < ce * we.
Proof.
  intros Hw. destruct (crew_efficiency_returns c) as (ce & Hce & Hlo & Hhi).
  destruct (weather_efficiency_bounds _ _ Hw) as [Hwl Hwh].
  exists ce. split; [exact Hce|]. split; nra.
Qed.

(** The closed form of the labor hours on recognized keys. *)
Lemma calculate_labor_hours_closed (gfa : Q) (bt : string) (c : Z)
    (w : string) (rates : gmap string Q) (we : Q) :
  LABOR_PRODUCTIVITY_RATES !! bt = Some rates →
  weather_efficiency w = Ok we →
  ∃ f s fi ce h,
    rates !! "foundation" = Some f ∧ rates !! "structural" = Some s ∧
    rates !! "finishing" = Some fi ∧ 0 < f + s + fi ∧
    crew_efficiency c = Ok ce ∧ 0 < ce * we ∧
    calculate_labor_hours gfa bt c w = Ok h ∧
    h == (f + s + fi) * gfa / (ce * we).
Proof.
  intros Hbt Hw.
  destruct (labor_rates_phases _ _ Hbt)
    as (f & s & fi & Hf & Hs & Hfi & Hf0 & Hs0 & Hfi0).
  destruct (divisor_bound c _ _ Hw) as (ce & Hce & _ & Hpos).
  exists f, s, fi, ce. eexists.
  split; [exact Hf|]. split; [exact Hs|]. split; [exact Hfi|].
  split; [lra|]. split; [exact Hce|]. split; [exact Hpos|]. split.
  - apply (calculate_labor_hours_Some gfa bt c w rates f s fi ce we);
      try assumption. lra.
  - rewrite sum3. reflexivity.
Qed.

(** C3.  For a positive area, a building type of the productivity table, a
    weather key of the weather table and any crew size,
    [calculate_labor_hours] returns
    (foundation + structural + finishing rate) x area / (crew efficiency x
    weather efficiency), where the crew efficiency is 0.9 up to 14 workers,
    1.0 from 15 to 30 and 1.1 above 30, and the weather efficiency is the
    table entry of the weather key. *)
Theorem calculate_labor_hours_formula (gfa : Q) (bt : string) (c : Z)
    (w : string) (rates : gmap string Q) (we : Q) :
  0 < gfa →
  LABOR_PRODUCTIVITY_RATES !! bt = Some rates →
  weather_efficiency w = Ok we →
  ∃ f s fi ce h,
    rates !! "foundation" = Some f ∧ rates !! "structural" = Some s ∧
    rates !! "finishing" = Some fi ∧
    ((c <= 14)%Z → ce = 0.9) ∧
    ((15 <= c <= 30)%Z → ce = 1.0) ∧
    ((30 < c)%Z → ce = 1.1) ∧
    (w, we) ∈ [("Good", 1.0); ("Average", 0.9); ("Poor", 0.8)] ∧
    calculate_labor_hours gfa bt c w = Ok h ∧
    h == (f + s + fi) * gfa / (ce * we).
Proof.
  intros _ Hbt Hw.
  destruct (calculate_labor_hours_closed gfa bt c w rates we Hbt Hw)
    as (f & s & fi & ce & h & Hf & Hs & Hfi & _ & Hce & _ & Hh & Heq).
  destruct (crew_efficiency_step c) as (Hsmall & Hmedium & Hlarge).
  exists f, s, fi, ce, h.
  split; [exact Hf|]. split; [exact Hs|]. split; [exact Hfi|].
  split; [intros Hc; specialize (Hsmall Hc); congruence|].
  split; [intros Hc; specialize (Hmedium Hc); congruence|].
  split; [intros Hc; specialize (Hlarge Hc); congruence|].
  split; [apply weather_efficiency_Ok, Hw|].
  split; [exact Hh|exact Heq].
Qed.

Lemma calculate_labor_hours_formula_witness :
  0 < 600 ∧
  ∃ f s fi ce h,
    (list_to_map [("foundation", 1.5); ("structural", 2.5); ("finishing", 2.0)]
       : gmap string Q) !! "foundation" = Some f ∧
    (list_to_map [("foundation", 1.5); ("structural", 2.5); ("finishing", 2.0)]
       : gmap string Q) !! "structural" = Some s ∧
    (list_to_map [("foundation", 1.5); ("structural", 2.5); ("finishing", 2.0)]
       : gmap string Q) !! "finishing" = Some fi ∧
    ((40 <= 14)%Z → ce = 0.9) ∧
    ((15 <= 40 <= 30)%Z → ce = 1.0) ∧
    ((30 < 40)%Z → ce = 1.1) ∧
    ("Poor", 0.8) ∈ [("Good", 1.0); ("Average", 0.9); ("Poor", 0.8)] ∧
    calculate_labor_hours 600 "Commercial" 40 "Poor" = Ok h ∧
    h == (f + s + fi) * 600 / (ce * 0.8).
Proof.
  split; [reflexivity|].
  apply (calculate_labor_hours_formula 600 "Commercial" 40 "Poor");
    reflexivity.
Defined.

(** C10.  Whatever the crew size, and for every weather key of the table,
    the divisor crew efficiency x weather efficiency is at least 0.72, hence
    positive; [calculate_labor_hours] never raises [ZeroDivisionError]; and
    on a positive area with recognized keys it returns a positive number of
    hours. *)
Theorem calculate_labor_hours_divisor_positive :
  (∀ (c : Z) (w : string) (we : Q),
     weather_efficiency w = Ok we →
     ∃ ce, crew_efficiency c = Ok ce ∧ 0.72 <= ce * we ∧ 0 < ce * we) ∧
  (∀ (gfa : Q) (bt : string) (c : Z) (w : string),
     calculate_labor_hours gfa bt c w ≠ Raise ZeroDivisionError) ∧
  (∀ (gfa : Q) (bt : string) (c : Z) (w : string)
     (rates : gmap string Q) (we : Q),
     0 < gfa →
     LABOR_PRODUCTIVITY_RATES !! bt = Some rates →
     weather_efficiency w = Ok we →
     ∃ h, calculate_labor_hours gfa bt c w = Ok h ∧ 0 < h).
Proof.
  split; [exact divisor_bound|]. split.
  - intros gfa bt c w.
    destruct (LABOR_PRODUCTIVITY_RATES !! bt) as [rates|] eqn:Hbt.
    + destruct (weather_efficiency w) as [we|e] eqn:Hw.
      * destruct (calculate_labor_hours_closed gfa bt c w rates we Hbt Hw)
          as (f & s & fi & ce & h & _ & _ & _ & _ & _ & _ & Hh & _).
        rewrite Hh. discriminate.
      * rewrite (calculate_labor_hours_no_weather gfa bt c w rates e Hbt Hw).
        discriminate.
    + rewrite (calculate_labor_hours_no_type gfa bt c w Hbt). discriminate.
  - intros gfa bt c w rates we Hgfa Hbt Hw.
    destruct (calculate_labor_hours_closed gfa bt c w rates we Hbt Hw)
      as (f & s & fi & ce & h & _ & _ & _ & Hr & _ & Hd & Hh & Heq).
    exists h. split; [exact Hh|]. rewrite Heq.
    apply Qdiv_pos; [nra|exact Hd].
Qed.

Lemma calculate_labor_hours_divisor_positive_witness :
  weather_efficiency "Poor" = Ok 0.8 ∧
  ∃ ce, crew_efficiency 10 = Ok ce ∧ 0.72 <= ce * 0.8 ∧ 0 < ce * 0.8.
Proof.
  split; [reflexivity|].
  apply (proj1 calculate_labor_hours_divisor_positive 10%Z "Poor" 0.8).
  reflexivity.
Defined.

(** A larger divisor gives fewer hours. *)
Lemma calculate_labor_hours_antitone (gfa : Q) (bt : string)
    (rates : gmap string Q) (c1 c2 : Z) (w1 w2 : string)
    (ce1 ce2 we1 we2 : Q) :
  0 < gfa →
  LABOR_PRODUCTIVITY_RATES !! bt = Some rates →
  crew_efficiency c1 = Ok ce1 → weather_efficiency w1 = Ok we1 →
  crew_efficiency c2 = Ok ce2 → weather_efficiency w2 = Ok we2 →
  ce1 * we1 < ce2 * we2 →
  ∃ h1 h2,
    calculate_labor_hours gfa bt c1 w1 = Ok h1 ∧
    calculate_labor_hours gfa bt c2 w2 = Ok h2 ∧ h2 < h1.
Proof.
  intros Hgfa Hbt Hc1 Hw1 Hc2 Hw2 Hlt.
  destruct (calculate_labor_hours_closed gfa bt c1 w1 rates we1 Hbt Hw1)
    as (f & s & fi & ce1' & h1 & Hf & Hs & Hfi & Hr & Hce1 & Hd1 & Hh1 & He1).
  destruct (calculate_labor_hours_closed gfa bt c2 w2 rates we2 Hbt Hw2)
    as (f' & s' & fi' & ce2' & h2 & Hf' & Hs' & Hfi' & _ & Hce2 & Hd2 & Hh2 & He2).
  assert (f' = f) as -> by congruence.
  assert (s' = s) as -> by congruence.
  assert (fi' = fi) as -> by congruence.
  assert (ce1' = ce1) as -> by congruence.
  assert (ce2' = ce2) as -> by congruence.
  exists h1, h2. split; [exact Hh1|]. split; [exact Hh2|].
  rewrite He1, He2. apply Qdiv_antitone; [nra|exact Hd1|exact Hlt].
Qed.

(** The hours depend on the crew size only through its band. *)
Lemma calculate_labor_hours_band (gfa : Q) (bt : string) (c1 c2 : Z)
    (w : string) :
  crew_size_key c1 = crew_size_key c2 →
  calculate_labor_hours gfa bt c1 w = calculate_labor_hours gfa bt c2 w.
Proof.
  intros H. unfold calculate_labor_hours, crew_efficiency. rewrite H.
  reflexivity.
Qed.

(** C4.  For a positive area and a building type and weather key of the
    tables: the hours at 15 workers are strictly below those at 14, and the
    hours at 31 strictly below those at 30; any crew above 30 needs strictly
    fewer hours than any crew of at most 30; and for every fixed crew size
    the hours strictly decrease from Poor to Average to Good weather. *)
Theorem calculate_labor_hours_monotone (gfa : Q) (bt : string)
    (rates : gmap string Q) :
  0 < gfa →
  LABOR_PRODUCTIVITY_RATES !! bt = Some rates →
  (∀ (w : string) (we : Q),
     weather_efficiency w = Ok we →
     (∃ h14 h15,
        calculate_labor_hours gfa bt 14 w = Ok h14 ∧
        calculate_labor_hours gfa bt 15 w = Ok h15 ∧ h15 < h14) ∧
     (∃ h30 h31,
        calculate_labor_hours gfa bt 30 w = Ok h30 ∧
        calculate_labor_hours gfa bt 31 w = Ok h31 ∧ h31 < h30) ∧
     (∀ c1 c2 : Z,
        (c1 <= 30)%Z → (30 < c2)%Z →
        ∃ h1 h2,
          calculate_labor_hours gfa bt c1 w = Ok h1 ∧
          calculate_labor_hours gfa bt c2 w = Ok h2 ∧ h2 < h1)) ∧
  (∀ c : Z,
     ∃ hp ha hg,
       calculate_labor_hours gfa bt c "Poor" = Ok hp ∧
       calculate_labor_hours gfa bt c "Average" = Ok ha ∧
       calculate_labor_hours gfa bt c "Good" = Ok hg ∧
       ha < hp ∧ hg < ha).
Proof.
  intros Hgfa Hbt. split.
  - intros w we Hw.
    destruct (weather_efficiency_bounds _ _ Hw) as [Hwl Hwh].
    assert (Hcross : ∀ c1 c2 : Z, (c1 <= 30)%Z → (30 < c2)%Z →
              ∃ h1 h2,
                calculate_labor_hours gfa bt c1 w = Ok h1 ∧
                calculate_labor_hours gfa bt c2 w = Ok h2 ∧ h2 < h1).
    { intros c1 c2 H1 H2.
      destruct (crew_efficiency_step c1) as (Hs1 & Hm1 & _).
      destruct (crew_efficiency_step c2) as (_ & _ & Hl2).
      destruct (Z_le_gt_dec c1 14) as [Hc|Hc].
      - apply (calculate_labor_hours_antitone gfa bt rates c1 c2 w w
                 0.9 1.1 we we); auto. nra.
      - apply (calculate_labor_hours_antitone gfa bt rates c1 c2 w w
                 1.0 1.1 we we); auto; [apply Hm1; lia|nra]. }
    split; [|split].
    + apply (calculate_labor_hours_antitone gfa bt rates 14 15 w w
               0.9 1.0 we we); auto. nra.
    + apply Hcross; lia.
    + exact Hcross.
  - intros c. destruct (crew_efficiency_returns c) as (ce & Hce & Hlo & Hhi).
    destruct (calculate_labor_hours_antitone gfa bt rates c c "Poor" "Average"
                ce ce 0.8 0.9) as (hp & ha & Hp & Ha & Hpa); auto; [nra|].
    destruct (calculate_labor_hours_antitone gfa bt rates c c "Average" "Good"
                ce ce 0.9 1.0) as (ha' & hg & Ha' & Hg & Hag); auto; [nra|].
    assert (ha' = ha) as -> by congruence.
    exists hp, ha, hg. repeat split; assumption.
Qed.

Lemma calculate_labor_hours_monotone_witness :
  0 < 600 ∧
  (∃ h14 h15,
     calculate_labor_hours 600 "Residential" 14 "Average" = Ok h14 ∧
     calculate_labor_hours 600 "Residential" 15 "Average" = Ok h15 ∧
     h15 < h14) ∧
  (∃ hp ha hg,
     calculate_labor_hours 600 "Residential" 20 "Poor" = Ok hp ∧
     calculate_labor_hours 600 "Residential" 20 "Average" = Ok ha ∧
     calculate_labor_hours 600 "Residential" 20 "Good" = Ok hg ∧
     ha < hp ∧ hg < ha).
Proof.
  assert (Hgfa : 0 < 600) by reflexivity.
  assert (Hbt : LABOR_PRODUCTIVITY_RATES !! "Residential"
                = Some (list_to_map [("foundation", 1.2); ("structural", 2.0);
                                     ("finishing", 1.5)])) by reflexivity.
  assert (Hw : weather_efficiency "Average" = Ok 0.9) by reflexivity.
  destruct (calculate_labor_hours_monotone 600 "Residential" _ Hgfa Hbt)
    as [Hcrew Hweather].
  split; [exact Hgfa|]. split.
  - exact (proj1 (Hcrew "Average" 0.9 Hw)).
  - exact (Hweather 20%Z).
Defined.

(** ** Unrecognized keys *)

Lemma getitem2_Ok_iff {V : Type} (d : gmap string (gmap string V))
    (k1 k2 : string) (v : V) :
  getitem2 d k1 k2 = Ok v ↔ (d !! k1) ≫= (λ inner, inner !! k2) = Some v.
Proof.
  unfold getitem2, getitem. destruct (d !! k1) as [inner|]; simpl.
  - destruct (inner !! k2); split; intros H; inversion H; reflexivity.
  - split; discriminate.
Qed.

Lemma weather_efficiency_lookup (w : string) :
  (EFFICIENCY_FACTORS !! "weather") ≫= (λ inner, inner !! w) = None ↔
  raises (weather_efficiency w).
Proof.
  unfold raises. destruct (weather_efficiency w) as [we|e] eqn:E; split.
  - apply getitem2_Ok_iff in E. rewrite E. discriminate.
  - intros [e He]. discriminate He.
  - intros _. exists e. reflexivity.
  - intros _.
    destruct (EFFICIENCY_FACTORS !! "weather" ≫= λ inner, inner !! w)
      as [we|] eqn:E'; [|reflexivity].
    apply (getitem2_Ok_iff EFFICIENCY_FACTORS "weather" w we) in E'.
    unfold weather_efficiency in E. congruence.
Qed.

(** C8.  Each calculator fails exactly when a key it is given is missing
    from the table it subscripts, the failure is the [KeyError] of that key
    (no default is substituted), and on recognized keys a value is returned:
    the shape in [calculate_gfa], the soil and the access in
    [calculate_site_difficulty], the building type and the weather in
    [calculate_labor_hours]. *)
Theorem lookup_fails_iff_key_missing :
  (∀ (l b s : Z) (shape : string),
     (raises (calculate_gfa l b s shape) ↔ SHAPE_COMPLEXITY !! shape = None) ∧
     (SHAPE_COMPLEXITY !! shape = None →
      calculate_gfa l b s shape = Raise (KeyError shape)) ∧
     (is_Some (SHAPE_COMPLEXITY !! shape) →
      returns (calculate_gfa l b s shape))) ∧
  (∀ (soil access : string),
     (raises (calculate_site_difficulty soil access) ↔
      soil_map !! soil = None ∨ access_map !! access = None) ∧
     (soil_map !! soil = None →
      calculate_site_difficulty soil access = Raise (KeyError soil)) ∧
     (is_Some (soil_map !! soil) → access_map !! access = None →
      calculate_site_difficulty soil access = Raise (KeyError access)) ∧
     (is_Some (soil_map !! soil) → is_Some (access_map !! access) →
      returns (calculate_site_difficulty soil access))) ∧
  (∀ (gfa : Q) (bt : string) (c : Z) (w : string),
     let weather_entry :=
       (EFFICIENCY_FACTORS !! "weather") ≫= (λ inner, inner !! w) in
     (raises (calculate_labor_hours gfa bt c w) ↔
      LABOR_PRODUCTIVITY_RATES !! bt = None ∨ weather_entry = None) ∧
     (LABOR_PRODUCTIVITY_RATES !! bt = None →
      calculate_labor_hours gfa bt c w = Raise (KeyError bt)) ∧
     (is_Some (LABOR_PRODUCTIVITY_RATES !! bt) → weather_entry = None →
      calculate_labor_hours gfa bt c w = Raise (KeyError w)) ∧
     (is_Some (LABOR_PRODUCTIVITY_RATES !! bt) → is_Some weather_entry →
      returns (calculate_labor_hours gfa bt c w))).
Proof.
  split; [|split].
  - intros l b s shape.
    destruct (SHAPE_COMPLEXITY !! shape) as [m|] eqn:H.
    + pose proof (calculate_gfa_Some l b s shape m H) as Hr.
      split; [|split].
      * split; [intros [e He]; congruence|discriminate].
      * discriminate.
      * intros _. eexists. exact Hr.
    + pose proof (calculate_gfa_None l b s shape H) as Hr.
      split; [|split].
      * split; [reflexivity|]. intros _. eexists. exact Hr.
      * intros _. exact Hr.
      * intros [m Hm]. discriminate Hm.
  - intros soil access.
    destruct (soil_map !! soil) as [s|] eqn:Hs.
    + destruct (access_map !! access) as [a|] eqn:Ha.
      * pose proof (calculate_site_difficulty_Some soil access s a Hs Ha) as Hr.
        split; [|split; [|split]].
        -- split; [intros [e He]; congruence|].
           intros [H|H]; discriminate H.
        -- discriminate.
        -- discriminate.
        -- intros _ _. eexists. exact Hr.
      * pose proof (calculate_site_difficulty_no_access soil access s Hs Ha)
          as Hr.
        split; [|split; [|split]].
        -- split; [right; reflexivity|]. intros _. eexists. exact Hr.
        -- discriminate.
        -- intros _ _. exact Hr.
        -- intros _ [a Ha']. discriminate Ha'.
    + pose proof (calculate_site_difficulty_no_soil soil access Hs) as Hr.
      split; [|split; [|split]].
      * split; [left; reflexivity|]. intros _. eexists. exact Hr.
      * intros _. exact Hr.
      * intros [s Hs']. discriminate Hs'.
      * intros [s Hs']. discriminate Hs'.
  - intros gfa bt c w weather_entry.
    pose proof (weather_efficiency_lookup w) as Hwl. fold weather_entry in Hwl.
    destruct (LABOR_PRODUCTIVITY_RATES !! bt) as [rates|] eqn:Hbt.
    + destruct (weather_efficiency w) as [we|e] eqn:Hw.
      * destruct (calculate_labor_hours_closed gfa bt c w rates we Hbt Hw)
          as (f & s & fi & ce & h & _ & _ & _ & _ & _ & _ & Hh & _).
        assert (Hsome : weather_entry ≠ None).
        { intros Hn. apply Hwl in Hn as [e He]. discriminate He. }
        split; [|split; [|split]].
        -- split; [intros [e He]; congruence|].
           intros [H|H]; [discriminate H|contradiction].
        -- discriminate.
        -- intros _ Hn. contradiction.
        -- intros _ _. eexists. exact Hh.
      * pose proof (calculate_labor_hours_no_weather gfa bt c w rates e Hbt Hw)
          as Hr.
        assert (Hnone : weather_entry = None).
        { apply Hwl. eexists. reflexivity. }
        split; [|split; [|split]].
        -- split; [right; exact Hnone|]. intros _. eexists. exact Hr.
        -- discriminate.
        -- intros _ _. exact Hr.
        -- intros _ [x Hx]. congruence.
    + pose proof (calculate_labor_hours_no_type gfa bt c w Hbt) as Hr.
      split; [|split; [|split]].
      * split; [left; reflexivity|]. intros _. eexists. exact Hr.
      * intros _. exact Hr.
      * intros [x Hx]. discriminate Hx.
      * intros [x Hx]. discriminate Hx.
Qed.

Lemma lookup_fails_iff_key_missing_witness :
  SHAPE_COMPLEXITY !! "Triangular" = None ∧
  calculate_gfa 20 15 2 "Triangular" = Raise (KeyError "Triangular").
Proof.
  assert (H : SHAPE_COMPLEXITY !! "Triangular" = None) by reflexivity.
  split; [exact H|].
  exact (proj1 (proj2 (proj1 lookup_fails_iff_key_missing
                         20%Z 15%Z 2%Z "Triangular")) H).
Defined.

(** ** Cost breakdown *)

(** Every building type of the material table has its five materials, each
    with a positive rate, and a positive plant rate. *)
Lemma material_rates_entries (bt : string) (rates : gmap string Q) :
  MATERIAL_RATES !! bt = Some rates →
  ∃ rc rb rs rd rg pr,
    rates !! "cement" = Some rc ∧ rates !! "blocks" = Some rb ∧
    rates !! "steel" = Some rs ∧ rates !! "sand" = Some rd ∧
    rates !! "granite" = Some rg ∧ PLANT_RATES !! bt = Some pr ∧
    0 < rc ∧ 0 < rb ∧ 0 < rs ∧ 0 < rd ∧ 0 < rg ∧ 0 < pr.
Proof.
  intros H. table_cases H;
    (do 6 eexists; do 6 (split; [reflexivity|]); repeat split; lra).
Qed.

Lemma material_line_Some (price : Z) (bt material : string) (gfa : Q)
    (rates : gmap string Q) (r : Q) :
  MATERIAL_RATES !! bt = Some rates → rates !! material = Some r →
  material_line price bt material gfa = Ok (inject_Z price * r * gfa).
Proof.
  intros Hbt Hr. unfold material_line.
  rewrite (getitem2_Some _ _ _ _ _ Hbt Hr). reflexivity.
Qed.

Lemma material_cost_Some (bt : string) (c b s d g : Z) (gfa : Q)
    (rates : gmap string Q) (rc rb rs rd rg : Q) :
  MATERIAL_RATES !! bt = Some rates →
  rates !! "cement" = Some rc → rates !! "blocks" = Some rb →
  rates !! "steel" = Some rs → rates !! "sand" = Some rd →
  rates !! "granite" = Some rg →
  material_cost bt c b s d g gfa =
  Ok (sum [inject_Z c * rc * gfa; inject_Z b * rb * gfa;
           inject_Z s * rs * gfa; inject_Z d * rd * gfa;
           inject_Z g * rg * gfa]).
Proof.
  intros Hbt Hc Hb Hs Hd Hg. unfold material_cost.
  rewrite (material_line_Some c _ _ gfa _ _ Hbt Hc), bind_Ok.
  rewrite (material_line_Some b _ _ gfa _ _ Hbt Hb), bind_Ok.
  rewrite (material_line_Some s _ _ gfa _ _ Hbt Hs), bind_Ok.
  rewrite (material_line_Some d _ _ gfa _ _ Hbt Hd), bind_Ok.
  rewrite (material_line_Some g _ _ gfa _ _ Hbt Hg), bind_Ok.
  reflexivity.
Qed.

Lemma plant_cost_Some (m l : Q) (bt : string) (pr : Q) :
  PLANT_RATES !! bt = Some pr → plant_cost m l bt = Ok ((m + l) * pr).
Proof.
  intros H. unfold plant_cost. rewrite (getitem_Some _ _ _ H). reflexivity.
Qed.

Lemma labor_cost_eq (lh : Q) (lr : Z) :
  labor_cost lh lr == lh * inject_Z lr * 1.15.
Proof. unfold labor_cost, OVERHEAD_PROFIT. ring. Qed.

(** The breakdown on a building type of the material table. *)
Lemma cost_breakdown_closed (bt : string) (rates : gmap string Q)
    (c b s d g : Z) (lh : Q) (lr : Z) (gfa : Q) :
  MATERIAL_RATES !! bt = Some rates →
  ∃ rc rb rs rd rg pr m p,
    rates !! "cement" = Some rc ∧ rates !! "blocks" = Some rb ∧
    rates !! "steel" = Some rs ∧ rates !! "sand" = Some rd ∧
    rates !! "granite" = Some rg ∧ PLANT_RATES !! bt = Some pr ∧
    (0 < rc ∧ 0 < rb ∧ 0 < rs ∧ 0 < rd ∧ 0 < rg ∧ 0 < pr) ∧
    material_cost bt c b s d g gfa = Ok m ∧
    m == inject_Z c * rc * gfa + inject_Z b * rb * gfa +
         inject_Z s * rs * gfa + inject_Z d * rd * gfa +
         inject_Z g * rg * gfa ∧
    plant_cost m (labor_cost lh lr) bt = Ok p ∧
    p == (m + labor_cost lh lr) * pr.
Proof.
  intros Hbt.
  destruct (material_rates_entries bt rates Hbt)
    as (rc & rb & rs & rd & rg & pr & Hc & Hb & Hs & Hd & Hg & Hp & Hpos).
  exists rc, rb, rs, rd, rg, pr. do 2 eexists.
  do 6 (split; [eassumption|]). split; [exact Hpos|].
  split; [apply (material_cost_Some bt c b s d g gfa rates); eassumption|].
  split; [apply sum5|].
  split; [apply plant_cost_Some, Hp|reflexivity].
Qed.

Lemma recognized_building_type (bt : string) :
  bt ∈ ["Residential"; "Commercial"; "Industrial"] →
  is_Some (MATERIAL_RATES !! bt) ∧ is_Some (PLANT_RATES !! bt) ∧
  is_Some (LABOR_PRODUCTIVITY_RATES !! bt).
Proof.
  intros H.
  repeat (apply elem_of_cons in H as [->|H];
          [repeat split; eexists; reflexivity|]).
  apply elem_of_nil in H. destruct H.
Qed.

(** C1.  For each of the building types Residential, Commercial and
    Industrial, positive prices, labor hours, labor rate and area: the
    material cost is the sum over cement, blocks, steel, sand and granite of
    price x rate of the building type x area; the labor cost is labor hours
    x hourly rate x 1.15; the plant cost is (material + labor) x the plant
    rate of the building type; the base cost is material + labor + plant;
    and none of these is negative.  For Residential, a cement price of 9800
    and an area of 600 the cement line is 2,940,000. *)
Theorem cost_breakdown_formulas :
  (∀ (bt : string) (c b s d g : Z) (lh : Q) (lr : Z) (gfa : Q),
     bt ∈ ["Residential"; "Commercial"; "Industrial"] →
     (0 < c)%Z → (0 < b)%Z → (0 < s)%Z → (0 < d)%Z → (0 < g)%Z →
     0 < lh → (0 < lr)%Z → 0 < gfa →
     ∃ rates rc rb rs rd rg pr m p,
       MATERIAL_RATES !! bt = Some rates ∧
       rates !! "cement" = Some rc ∧ rates !! "blocks" = Some rb ∧
       rates !! "steel" = Some rs ∧ rates !! "sand" = Some rd ∧
       rates !! "granite" = Some rg ∧ PLANT_RATES !! bt = Some pr ∧
       material_cost bt c b s d g gfa = Ok m ∧
       m == inject_Z c * rc * gfa + inject_Z b * rb * gfa +
            inject_Z s * rs * gfa + inject_Z d * rd * gfa +
            inject_Z g * rg * gfa ∧
       labor_cost lh lr == lh * inject_Z lr * 1.15 ∧
       plant_cost m (labor_cost lh lr) bt = Ok p ∧
       p == (m + labor_cost lh lr) * pr ∧
       base_cost m (labor_cost lh lr) p == m + labor_cost lh lr + p ∧
       0 <= m ∧ 0 <= labor_cost lh lr ∧ 0 <= p ∧
       0 <= base_cost m (labor_cost lh lr) p) ∧
  (∃ line, material_line 9800 "Residential" "cement" 600 = Ok line ∧
           line == 9800 * 0.5 * 600 ∧ line == 2940000).
Proof.
  split.
  - intros bt c b s d g lh lr gfa Hbt Hc Hb Hs Hd Hg Hlh Hlr Hgfa.
    destruct (recognized_building_type bt Hbt) as ([rates Hrates] & _ & _).
    destruct (cost_breakdown_closed bt rates c b s d g lh lr gfa Hrates)
      as (rc & rb & rs & rd & rg & pr & m & p & Hrc & Hrb & Hrs & Hrd & Hrg
          & Hpr & (Hc0 & Hb0 & Hs0 & Hd0 & Hg0 & Hp0) & Hm & Hmeq & Hp & Hpeq).
    apply inject_Z_pos in Hc, Hb, Hs, Hd, Hg, Hlr.
    pose proof (labor_cost_eq lh lr) as Hl.
    assert (Hmpos : 0 < m).
    { rewrite Hmeq.
      assert (0 < inject_Z c * rc * gfa) by (repeat apply Qmult_lt_0_compat; assumption).
      assert (0 < inject_Z b * rb * gfa) by (repeat apply Qmult_lt_0_compat; assumption).
      assert (0 < inject_Z s * rs * gfa) by (repeat apply Qmult_lt_0_compat; assumption).
      assert (0 < inject_Z d * rd * gfa) by (repeat apply Qmult_lt_0_compat; assumption).
      assert (0 < inject_Z g * rg * gfa) by (repeat apply Qmult_lt_0_compat; assumption).
      lra. }
    assert (Hlpos : 0 < labor_cost lh lr).
    { rewrite Hl. repeat apply Qmult_lt_0_compat; try assumption. lra. }
    assert (Hppos : 0 < p).
    { rewrite Hpeq. apply Qmult_lt_0_compat; [lra|assumption]. }
    exists rates, rc, rb, rs, rd, rg, pr, m, p.
    do 7 (split; [assumption|]).
    split; [exact Hm|]. split; [exact Hmeq|]. split; [exact Hl|].
    split; [exact Hp|]. split; [exact Hpeq|].
    unfold base_cost. split; [reflexivity|]. repeat split; lra.
  - eexists. split; [reflexivity|]. split; reflexivity.
Qed.

Lemma cost_breakdown_formulas_witness :
  ∃ m p,
    material_cost "Residential" 9800 600 850000 35000 19500 600 = Ok m ∧
    plant_cost m (labor_cost 2820 1000) "Residential" = Ok p ∧
    base_cost m (labor_cost 2820 1000) p == m + labor_cost 2820 1000 + p ∧
    0 <= m ∧ 0 <= labor_cost 2820 1000 ∧ 0 <= p.
Proof.
  assert (Hbt : "Residential" ∈ ["Residential"; "Commercial"; "Industrial"]).
  { apply list_elem_of_In. simpl. left. reflexivity. }
  destruct (proj1 cost_breakdown_formulas "Residential"
              9800%Z 600%Z 850000%Z 35000%Z 19500%Z 2820 1000%Z 600
              Hbt eq_refl eq_refl eq_refl eq_refl eq_refl eq_refl eq_refl
              eq_refl)
    as (rates & rc & rb & rs & rd & rg & pr & m & p & _ & _ & _ & _ & _ & _
        & _ & Hm & _ & _ & Hp & _ & Hbase & Hm0 & Hl0 & Hp0 & _).
  exists m, p. repeat split; assumption.
Defined.

(** ** The estimate request *)

Lemma within_spec (lo hi v : Z) : within lo hi v = true → (lo <= v <= hi)%Z.
Proof. unfold within. intros H. apply andb_prop in H as [H1 H2]. lia. Qed.

(** What a form input satisfies. *)
Lemma form_input_spec (p : ProjectInput) :
  form_input p = true →
  (10 <= length p <= 100)%Z ∧ (10 <= breadth p <= 100)%Z ∧
  (1 <= storeys p <= 10)%Z ∧ (10 <= workers p <= 100)%Z ∧
  is_Some (SHAPE_COMPLEXITY !! shape p) ∧
  is_Some (MATERIAL_RATES !! building_type p) ∧
  is_Some (soil_map !! soil p) ∧ is_Some (access_map !! access p) ∧
  returns (weather_efficiency (weather p)).
Proof.
  unfold form_input. intros H.
  repeat (apply andb_prop in H as [H ?]).
  repeat match goal with
         | H : within _ _ _ = true |- _ => apply within_spec in H
         | H : bool_decide _ = true |- _ => apply bool_decide_eq_true in H
         end.
  repeat match goal with
         | H : _ ∈ dom _ |- _ => apply elem_of_dom in H
         end.
  do 4 (split; [lia|]). do 2 (split; [assumption|]).
  split; [|split].
  - match goal with
    | H : soil p ∈ _ |- _ =>
        repeat (apply elem_of_cons in H as [->|H]; [eexists; reflexivity|]);
        apply elem_of_nil in H; destruct H
    end.
  - match goal with
    | H : access p ∈ _ |- _ =>
        repeat (apply elem_of_cons in H as [->|H]; [eexists; reflexivity|]);
        apply elem_of_nil in H; destruct H
    end.
  - match goal with
    | H : weather p ∈ _ |- _ =>
        repeat (apply elem_of_cons in H as [->|H]; [eexists; reflexivity|]);
        apply elem_of_nil in H; destruct H
    end.
Qed.

Lemma shape_multiplier_pos (shape : string) (m : Q) :
  SHAPE_COMPLEXITY !! shape = Some m → 0 < m.
Proof. intros H. table_cases H; lra. Qed.

Lemma material_labor_same_keys (bt : string) :
  is_Some (MATERIAL_RATES !! bt) → is_Some (LABOR_PRODUCTIVITY_RATES !! bt).
Proof. intros [rates H]. table_cases H; eexists; reflexivity. Qed.

Lemma calculate_labor_hours_pos (gfa : Q) (bt : string) (c : Z) (w : string)
    (rates : gmap string Q) (we : Q) :
  0 < gfa →
  LABOR_PRODUCTIVITY_RATES !! bt = Some rates →
  weather_efficiency w = Ok we →
  ∃ h, calculate_labor_hours gfa bt c w = Ok h ∧ 0 < h.
Proof.
  intros Hgfa Hbt Hw.
  destruct (calculate_labor_hours_closed gfa bt c w rates we Hbt Hw)
    as (f & s & fi & ce & h & _ & _ & _ & Hr & _ & Hd & Hh & Heq).
  exists h. split; [exact Hh|]. rewrite Heq.
  apply Qdiv_pos; [nra|exact Hd].
Qed.

Section EstimatorFacts.

Context {Processed : Type}.
Variable preprocessor_transform : list (list (string * pyval)) → Processed.
Variable model_predict : Processed → list Q.

(** What a returned estimate was computed from. *)
Lemma estimate_Ok_inv (p : ProjectInput) (e : Estimate) :
  estimate preprocessor_transform model_predict p = Ok e →
  ∃ gfa lh sd sc,
    calculate_gfa (length p) (breadth p) (storeys p) (shape p) = Ok gfa ∧
    calculate_labor_hours gfa (building_type p) (workers p) (weather p)
      = Ok lh ∧
    calculate_site_difficulty (soil p) (access p) = Ok sd ∧
    SHAPE_COMPLEXITY !! shape p = Some sc ∧
    est_labor_cost e = labor_cost lh (labor_rate p) ∧
    est_input_data e =
      input_data p (labor_cost lh (labor_rate p)) sd sc
        (vertical_complexity (storeys p)) ∧
    first (model_predict (preprocessor_transform [est_input_data e]))
      = Ok (est_total_cost e).
Proof.
  unfold estimate. intros H.
  destruct (calculate_gfa _ _ _ _) as [gfa|] eqn:Hgfa; [|discriminate H].
  rewrite bind_Ok in H.
  destruct (calculate_labor_hours _ _ _ _) as [lh|] eqn:Hlh; [|discriminate H].
  rewrite bind_Ok in H.
  destruct (truediv gfa _) as [lp|]; [|discriminate H].
  rewrite bind_Ok in H.
  destruct (truediv lh _) as [pd|]; [|discriminate H].
  rewrite bind_Ok in H.
  destruct (calculate_site_difficulty _ _) as [sd|] eqn:Hsd; [|discriminate H].
  rewrite bind_Ok in H.
  destruct (getitem SHAPE_COMPLEXITY _) as [sc|] eqn:Hsc; [|discriminate H].
  rewrite bind_Ok in H. cbv zeta in H.
  destruct (first _) as [tc|] eqn:Htc; [|discriminate H].
  rewrite bind_Ok in H.
  destruct (material_cost _ _ _ _ _ _ _) as [m|]; [|discriminate H].
  rewrite bind_Ok in H.
  destruct (plant_cost _ _ _) as [pc|]; [|discriminate H].
  rewrite bind_Ok in H.
  destruct (risk_components _) as [rc|]; [|discriminate H].
  rewrite bind_Ok in H. injection H as <-. simpl.
  exists gfa, lh, sd, sc.
  split; [reflexivity|]. split; [exact Hlh|]. split; [reflexivity|].
  split; [apply getitem_Ok_iff, Hsc|]. split; [reflexivity|].
  split; [reflexivity|]. exact Htc.
Qed.

(** A form input is estimated, provided the model predicts at least one
    value for the row. *)
Lemma estimate_returns (p : ProjectInput) :
  form_input p = true →
  (∀ x, model_predict x ≠ []) →
  returns (estimate preprocessor_transform model_predict p).
Proof.
  intros Hp Hpredict.
  destruct (form_input_spec p Hp)
    as (Hl & Hb & Hs & Hwk & [m Hm] & [rates Hrates] & [sv Hsv] & [av Hav]
        & [we Hwe]).
  destruct (material_labor_same_keys _ (ex_intro _ rates Hrates))
    as [lrates Hlrates].
  pose proof (shape_multiplier_pos _ _ Hm) as Hm0.
  assert (Hgfa0 : 0 < inject_Z (length p * breadth p * storeys p) * m).
  { apply Qmult_lt_0_compat; [apply inject_Z_pos; nia|exact Hm0]. }
  destruct (calculate_labor_hours_pos _ (building_type p) (workers p)
              (weather p) lrates we Hgfa0 Hlrates Hwe) as (lh & Hlh & Hlh0).
  assert (Hw0 : 0 < inject_Z (workers p)) by (apply inject_Z_pos; lia).
  assert (Hw8 : 0 < inject_Z (workers p * STANDARD_WORK_HOURS)).
  { apply inject_Z_pos. unfold STANDARD_WORK_HOURS. lia. }
  destruct (cost_breakdown_closed (building_type p) rates (cement p)
              (blocks p) (steel p) (sand p) (granite p) lh (labor_rate p)
              (inject_Z (length p * breadth p * storeys p) * m) Hrates)
    as (rc & rb & rs & rd & rg & pr & mc & pc & _ & _ & _ & _ & _ & _ & _
        & Hmc & _ & Hpc & _).
  assert (Hd1 : ¬ lh * inject_Z (workers p) == 0) by nra.
  assert (Hd2 : ¬ inject_Z (workers p * STANDARD_WORK_HOURS) == 0) by lra.
  unfold returns, estimate.
  rewrite (calculate_gfa_Some _ _ _ _ _ Hm), bind_Ok.
  rewrite Hlh, bind_Ok.
  rewrite (truediv_nonzero _ _ Hd1), bind_Ok.
  rewrite (truediv_nonzero _ _ Hd2), bind_Ok.
  rewrite (calculate_site_difficulty_Some _ _ _ _ Hsv Hav), bind_Ok.
  rewrite (getitem_Some _ _ _ Hm), bind_Ok. cbv zeta.
  match goal with
  | |- context [first (model_predict ?x)] =>
      destruct (model_predict x) as [|tc rest] eqn:Htc;
      [exfalso; exact (Hpredict x Htc)|]
  end.
  unfold first at 1. rewrite bind_Ok.
  rewrite Hmc, bind_Ok, Hpc, bind_Ok.
  eexists. reflexivity.
Qed.

End EstimatorFacts.

(** ** The feature record and the model call *)

Lemma feature_names_NoDup : NoDup feature_names.
Proof. apply (bool_decide_unpack _). vm_compute. exact I. Qed.

Lemma input_data_names (p : ProjectInput) (lc sd sc vc : Q) :
  (input_data p lc sd sc vc).*1 = feature_names.
Proof. reflexivity. Qed.

(** C7, as the claim states it, fails: on the default form input the record
    handed to the preprocessor has 21 fields, not 20. *)
Lemma feature_record_not_20_fields :
  ∃ e, estimate (λ rows, rows) (λ _, [1]) default_input = Ok e ∧
       List.length (est_input_data e) = 21%nat ∧
       List.length (est_input_data e) ≠ 20%nat.
Proof.
  eexists. split; [vm_compute; reflexivity|]. split; [reflexivity|].
  simpl. discriminate.
Qed.

(** C7, amended.  Every estimate that is produced assembled a record with
    exactly 21 named fields, the same names in the same order whatever the
    input: the geometry (length, breadth, storeys, shape), the categorical
    attributes (type, location, soil, access, weather), the five material
    prices and the labor rate, the computed labor cost, the worker count,
    the permit duration and the three complexity factors.  The one-row frame
    made of it went through the preprocessor and then the model, and the
    total cost is the first prediction.  Every form input is estimated when
    the model predicts at least one value. *)
Theorem feature_record_schema {Processed : Type}
    (preprocessor_transform : list (list (string * pyval)) → Processed)
    (model_predict : Processed → list Q) :
  (∀ (p : ProjectInput) (e : Estimate),
     estimate preprocessor_transform model_predict p = Ok e →
     List.length (est_input_data e) = 21%nat ∧
     (est_input_data e).*1 = feature_names ∧
     NoDup (est_input_data e).*1 ∧
     (∃ sd sc,
        calculate_site_difficulty (soil p) (access p) = Ok sd ∧
        SHAPE_COMPLEXITY !! shape p = Some sc ∧
        est_input_data e =
          input_data p (est_labor_cost e) sd sc
            (vertical_complexity (storeys p))) ∧
     first (model_predict (preprocessor_transform [est_input_data e]))
       = Ok (est_total_cost e)) ∧
  (∀ p : ProjectInput,
     form_input p = true → (∀ x, model_predict x ≠ []) →
     returns (estimate preprocessor_transform model_predict p)).
Proof.
  split.
  - intros p e H.
    destruct (estimate_Ok_inv _ _ p e H)
      as (gfa & lh & sd & sc & _ & _ & Hsd & Hsc & Hlc & Hdata & Htc).
    split; [rewrite Hdata; reflexivity|].
    split; [rewrite Hdata; reflexivity|].
    split; [rewrite Hdata; exact feature_names_NoDup|].
    split; [|exact Htc].
    exists sd, sc. split; [exact Hsd|]. split; [exact Hsc|].
    rewrite Hlc. exact Hdata.
  - intros p. apply estimate_returns.
Qed.

Lemma feature_record_schema_witness :
  ∃ e, estimate (λ rows, rows) (λ _, [1]) default_input = Ok e ∧
       List.length (est_input_data e) = 21%nat ∧
       (est_input_data e).*1 = feature_names ∧
       est_total_cost e = 1.
Proof.
  assert (Hp : form_input default_input = true) by (vm_compute; reflexivity).
  assert (Hm : ∀ x : list (list (string * pyval)),
             (λ _ : list (list (string * pyval)), [1]) x ≠ [])
    by discriminate.
  destruct (proj2 (feature_record_schema (λ rows, rows) (λ _, [1]))
              default_input Hp Hm) as [e He].
  exists e. split; [exact He|].
  destruct (proj1 (feature_record_schema (λ rows, rows) (λ _, [1]))
              default_input e He) as (Hlen & Hnames & _ & _ & Htc).
  split; [exact Hlen|]. split; [exact Hnames|].
  simpl in Htc. injection Htc as <-. reflexivity.
Defined.

(** C9.  In the record of every estimate that is produced, the field
    [Vertical_Complexity] holds storeys x 0.25 and nothing else; form inputs
    are estimated, so this covers every storey count the slider offers. *)
Theorem vertical_complexity_feature {Processed : Type}
    (preprocessor_transform : list (list (string * pyval)) → Processed)
    (model_predict : Processed → list Q) :
  (∀ (p : ProjectInput) (e : Estimate),
     estimate preprocessor_transform model_predict p = Ok e →
     ∀ v, ("Vertical_Complexity", v) ∈ est_input_data e ↔
          v = PyFloat (inject_Z (storeys p) * 0.25)) ∧
  (∀ p : ProjectInput,
     form_input p = true → (∀ x, model_predict x ≠ []) →
     ∃ e, estimate preprocessor_transform model_predict p = Ok e ∧
          ("Vertical_Complexity", PyFloat (inject_Z (storeys p) * 0.25))
            ∈ est_input_data e).
Proof.
  assert (Hfield : ∀ (p : ProjectInput) (e : Estimate),
            estimate preprocessor_transform model_predict p = Ok e →
            ∀ v, ("Vertical_Complexity", v) ∈ est_input_data e ↔
                 v = PyFloat (inject_Z (storeys p) * 0.25)).
  { intros p e H v.
    destruct (estimate_Ok_inv _ _ p e H)
      as (gfa & lh & sd & sc & _ & _ & _ & _ & _ & Hdata & _).
    rewrite Hdata. unfold input_data. split.
    - intros Hin.
      repeat (apply elem_of_cons in Hin as [Hin|Hin];
              [first [discriminate Hin | injection Hin as ->; reflexivity]|]).
      apply elem_of_nil in Hin. destruct Hin.
    - intros ->. apply list_elem_of_In. simpl. tauto. }
  split; [exact Hfield|].
  intros p Hp Hm.
  destruct (estimate_returns preprocessor_transform model_predict p Hp Hm)
    as [e He].
  exists e. split; [exact He|]. apply (Hfield p e He). reflexivity.
Qed.

Lemma vertical_complexity_feature_witness :
  ∃ e, estimate (λ rows, rows) (λ _, [1]) default_input = Ok e ∧
       ("Vertical_Complexity", PyFloat (2 * 0.25)) ∈ est_input_data e.
Proof.
  assert (Hp : form_input default_input = true) by (vm_compute; reflexivity).
  assert (Hm : ∀ x : list (list (string * pyval)),
             (λ _ : list (list (string * pyval)), [1]) x ≠ [])
    by discriminate.
  exact (proj2 (vertical_complexity_feature (λ rows, rows) (λ _, [1]))
           default_input Hp Hm).
Defined.

(** * Further properties of the calculation layer *)

(** ** Inversion of the calculators *)

Lemma truediv_Ok_inv (a b v : Q) :
  truediv a b = Ok v → ¬ b == 0 ∧ v = a / b.
Proof.
  unfold truediv. destruct (Qeq_bool b 0) eqn:E; [discriminate|].
  intros H. injection H as <-. split; [|reflexivity].
  intros Hb. apply Qeq_bool_iff in Hb. congruence.
Qed.

Lemma calculate_gfa_Ok_inv (l b s : Z) (shape : string) (gfa : Q) :
  calculate_gfa l b s shape = Ok gfa →
  ∃ m, SHAPE_COMPLEXITY !! shape = Some m ∧ gfa = inject_Z (l * b * s) * m.
Proof.
  intros H. destruct (SHAPE_COMPLEXITY !! shape) as [m|] eqn:Hm.
  - rewrite (calculate_gfa_Some l b s shape m Hm) in H. injection H as <-.
    exists m. split; reflexivity.
  - rewrite (calculate_gfa_None l b s shape Hm) in H. discriminate H.
Qed.

Lemma calculate_labor_hours_Ok_inv (gfa : Q) (bt : string) (c : Z)
    (w : string) (h : Q) :
  calculate_labor_hours gfa bt c w = Ok h →
  ∃ rates we,
    LABOR_PRODUCTIVITY_RATES !! bt = Some rates ∧
    weather_efficiency w = Ok we.
Proof.
  intros H. destruct (LABOR_PRODUCTIVITY_RATES !! bt) as [rates|] eqn:Hbt.
  - destruct (weather_efficiency w) as [we|e] eqn:Hw.
    + exists rates, we. split; reflexivity.
    + rewrite (calculate_labor_hours_no_weather gfa bt c w rates e Hbt Hw) in H.
      discriminate H.
  - rewrite (calculate_labor_hours_no_type gfa bt c w Hbt) in H.
    discriminate H.
Qed.

Lemma calculate_site_difficulty_Ok_inv (soil access : string) (v : Q) :
  calculate_site_difficulty soil access = Ok v →
  ∃ s a, soil_map !! soil = Some s ∧ access_map !! access = Some a ∧
         v = s * a.
Proof.
  intros H. destruct (soil_map !! soil) as [s|] eqn:Hs.
  - destruct (access_map !! access) as [a|] eqn:Ha.
    + rewrite (calculate_site_difficulty_Some soil access s a Hs Ha) in H.
      injection H as <-. exists s, a. repeat split; reflexivity.
    + rewrite (calculate_site_difficulty_no_access soil access s Hs Ha) in H.
      discriminate H.
  - rewrite (calculate_site_difficulty_no_soil soil access Hs) in H.
    discriminate H.
Qed.

Lemma labor_material_same_keys (bt : string) :
  is_Some (LABOR_PRODUCTIVITY_RATES !! bt) → is_Some (MATERIAL_RATES !! bt).
Proof. intros [rates H]. table_cases H; eexists; reflexivity. Qed.

(** The hours vanish exactly when the area does. *)
Lemma calculate_labor_hours_zero_iff (gfa : Q) (bt : string) (c : Z)
    (w : string) (h : Q) :
  calculate_labor_hours gfa bt c w = Ok h → (h == 0 ↔ gfa == 0).
Proof.
  intros H.
  destruct (calculate_labor_hours_Ok_inv gfa bt c w h H)
    as (rates & we & Hbt & Hw).
  destruct (calculate_labor_hours_closed gfa bt c w rates we Hbt Hw)
    as (f & s & fi & ce & h' & _ & _ & _ & Hr & _ & Hd & Hh & Heq).
  assert (h' = h) as -> by congruence.
  assert (Hmul : h * (ce * we) == (f + s + fi) * gfa).
  { rewrite Heq, Qmult_comm. apply Qmult_div_r. lra. }
  split; intros Hz.
  - rewrite Hz in Hmul. nra.
  - rewrite Hz in Hmul. nra.
Qed.

Section EstimateSteps.

Context {Processed : Type}.
Variable preprocessor_transform : list (list (string * pyval)) → Processed.
Variable model_predict : Processed → list Q.

(** An estimate is returned exactly when every step of the branch
    succeeds, and it then holds the values of the steps. *)
Lemma estimate_Ok_steps (p : ProjectInput) (e : Estimate) :
  estimate preprocessor_transform model_predict p = Ok e ↔
  ∃ gfa lh lp pd sd sc tc m pc rc,
    calculate_gfa (length p) (breadth p) (storeys p) (shape p) = Ok gfa ∧
    calculate_labor_hours gfa (building_type p) (workers p) (weather p)
      = Ok lh ∧
    truediv gfa (lh * inject_Z (workers p)) = Ok lp ∧
    truediv lh (inject_Z (workers p * STANDARD_WORK_HOURS)) = Ok pd ∧
    calculate_site_difficulty (soil p) (access p) = Ok sd ∧
    getitem SHAPE_COMPLEXITY (shape p) = Ok sc ∧
    first (model_predict (preprocessor_transform
             [input_data p (labor_cost lh (labor_rate p)) sd sc
                (vertical_complexity (storeys p))])) = Ok tc ∧
    material_cost (building_type p) (cement p) (blocks p) (steel p)
      (sand p) (granite p) gfa = Ok m ∧
    plant_cost m (labor_cost lh (labor_rate p)) (building_type p) = Ok pc ∧
    risk_components (base_cost m (labor_cost lh (labor_rate p)) pc) = Ok rc ∧
    e = {| est_gfa := gfa;
           est_labor_hours := lh;
           est_labor_productivity := lp;
           est_project_duration := pd;
           est_labor_cost := labor_cost lh (labor_rate p);
           est_input_data :=
             input_data p (labor_cost lh (labor_rate p)) sd sc
               (vertical_complexity (storeys p));
           est_total_cost := tc;
           est_material_cost := m;
           est_plant_cost := pc;
           est_base_cost := base_cost m (labor_cost lh (labor_rate p)) pc;
           est_risk_components := rc |}.
Proof.
  unfold estimate. split.
  - intros H.
    destruct (calculate_gfa _ _ _ _) as [gfa|] eqn:Hgfa; [|discriminate H].
    rewrite bind_Ok in H.
    destruct (calculate_labor_hours _ _ _ _) as [lh|] eqn:Hlh;
      [|discriminate H].
    rewrite bind_Ok in H.
    destruct (truediv gfa _) as [lp|] eqn:Hlp; [|discriminate H].
    rewrite bind_Ok in H.
    destruct (truediv lh _) as [pd|] eqn:Hpd; [|discriminate H].
    rewrite bind_Ok in H.
    destruct (calculate_site_difficulty _ _) as [sd|] eqn:Hsd;
      [|discriminate H].
    rewrite bind_Ok in H.
    destruct (getitem SHAPE_COMPLEXITY _) as [sc|] eqn:Hsc; [|discriminate H].
    rewrite bind_Ok in H. cbv zeta in H.
    destruct (first _) as [tc|] eqn:Htc; [|discriminate H].
    rewrite bind_Ok in H.
    destruct (material_cost _ _ _ _ _ _ _) as [m|] eqn:Hm; [|discriminate H].
    rewrite bind_Ok in H.
    destruct (plant_cost _ _ _) as [pc|] eqn:Hpc; [|discriminate H].
    rewrite bind_Ok in H.
    destruct (risk_components _) as [rc|] eqn:Hrc; [|discriminate H].
    rewrite bind_Ok in H. injection H as <-.
    exists gfa, lh, lp, pd, sd, sc, tc, m, pc, rc.
    split; [reflexivity|]. split; [exact Hlh|]. split; [exact Hlp|].
    split; [exact Hpd|]. split; [reflexivity|]. split; [reflexivity|].
    split; [exact Htc|]. split; [exact Hm|]. split; [exact Hpc|].
    split; [exact Hrc|]. reflexivity.
  - intros (gfa & lh & lp & pd & sd & sc & tc & m & pc & rc & Hgfa & Hlh
            & Hlp & Hpd & Hsd & Hsc & Htc & Hm & Hpc & Hrc & ->).
    rewrite Hgfa, bind_Ok, Hlh, bind_Ok, Hlp, bind_Ok, Hpd, bind_Ok.
    rewrite Hsd, bind_Ok, Hsc, bind_Ok. cbv zeta.
    rewrite Htc, bind_Ok, Hm, bind_Ok, Hpc, bind_Ok, Hrc, bind_Ok.
    reflexivity.
Qed.

End EstimateSteps.

Lemma inject_Z_zero_iff (z : Z) : inject_Z z == 0 ↔ z = 0%Z.
Proof. change 0 with (inject_Z 0). apply inject_Z_injective. Qed.

Lemma gfa_zero_iff (l b s : Z) (shape : string) (m : Q) :
  SHAPE_COMPLEXITY !! shape = Some m →
  (inject_Z (l * b * s) * m == 0 ↔ (l * b * s = 0)%Z).
Proof.
  intros Hm. pose proof (shape_multiplier_pos shape m Hm) as Hpos.
  rewrite <- inject_Z_zero_iff. split; intros H.
  - apply Qmult_integral in H as [H|H]; [exact H|lra].
  - rewrite H. ring.
Qed.

Section EstimateDomain.

Context {Processed : Type}.
Variable preprocessor_transform : list (list (string * pyval)) → Processed.
Variable model_predict : Processed → list Q.

(** The first two steps on recognized shape, building type and weather. *)
Lemma estimate_hours (p : ProjectInput) :
  is_Some (SHAPE_COMPLEXITY !! shape p) →
  is_Some (LABOR_PRODUCTIVITY_RATES !! building_type p) →
  returns (weather_efficiency (weather p)) →
  ∃ m lh,
    SHAPE_COMPLEXITY !! shape p = Some m ∧
    calculate_labor_hours
      (inject_Z (length p * breadth p * storeys p) * m)
      (building_type p) (workers p) (weather p) = Ok lh ∧
    (lh == 0 ↔ (length p * breadth p * storeys p = 0)%Z).
Proof.
  intros [m Hm] [rates Hbt] [we Hw].
  destruct (calculate_labor_hours_closed
              (inject_Z (length p * breadth p * storeys p) * m)
              (building_type p) (workers p) (weather p) rates we Hbt Hw)
    as (f & s & fi & ce & lh & _ & _ & _ & _ & _ & _ & Hlh & _).
  exists m, lh. split; [exact Hm|]. split; [exact Hlh|].
  rewrite (calculate_labor_hours_zero_iff _ _ _ _ _ Hlh).
  apply (gfa_zero_iff _ _ _ _ _ Hm).
Qed.

Lemma risk_components_returns (base : Q) : returns (risk_components base).
Proof. eexists. reflexivity. Qed.

(** X1.  Provided the model predicts at least one value, the submit branch
    produces an estimate exactly when the shape, the building type, the
    weather, the soil and the access are keys of their tables, the product
    length x breadth x storeys is not zero and the worker count is not zero.
    Negative dimensions or prices are not rejected. *)
Theorem estimate_returns_iff (p : ProjectInput) :
  (∀ x, model_predict x ≠ []) →
  (returns (estimate preprocessor_transform model_predict p) ↔
   is_Some (SHAPE_COMPLEXITY !! shape p) ∧
   is_Some (MATERIAL_RATES !! building_type p) ∧
   returns (weather_efficiency (weather p)) ∧
   is_Some (soil_map !! soil p) ∧
   is_Some (access_map !! access p) ∧
   (length p * breadth p * storeys p ≠ 0)%Z ∧
   (workers p ≠ 0)%Z).
Proof.
  intros Hpredict. split.
  - intros [e He]. apply estimate_Ok_steps in He
      as (gfa & lh & lp & pd & sd & sc & tc & m & pc & rc & Hgfa & Hlh
          & Hlp & Hpd & Hsd & Hsc & _).
    destruct (calculate_gfa_Ok_inv _ _ _ _ _ Hgfa) as (mu & Hmu & ->).
    destruct (calculate_labor_hours_Ok_inv _ _ _ _ _ Hlh)
      as (rates & we & Hbt & Hw).
    destruct (calculate_site_difficulty_Ok_inv _ _ _ Hsd)
      as (s & a & Hs & Ha & _).
    destruct (truediv_Ok_inv _ _ _ Hlp) as [Hnz _].
    split; [eexists; exact Hmu|].
    split; [apply labor_material_same_keys; eexists; exact Hbt|].
    split; [eexists; exact Hw|].
    split; [eexists; exact Hs|]. split; [eexists; exact Ha|]. split.
    + intros Hz. apply Hnz.
      apply (gfa_zero_iff _ _ _ _ _ Hmu) in Hz.
      apply (calculate_labor_hours_zero_iff _ _ _ _ _ Hlh) in Hz.
      rewrite Hz. ring.
    + intros Hz. apply Hnz. rewrite Hz. ring.
  - intros (Hshape & [mrates Hmrates] & Hw & [sv Hsv] & [av Hav] & Hdims & Hwk).
    pose proof (material_labor_same_keys _ (ex_intro _ mrates Hmrates)) as Hbt.
    destruct (estimate_hours p Hshape Hbt Hw) as (m & lh & Hm & Hlh & Hz).
    assert (Hlh0 : ¬ lh == 0) by (rewrite Hz; exact Hdims).
    assert (Hw0 : ¬ inject_Z (workers p) == 0)
      by (rewrite inject_Z_zero_iff; exact Hwk).
    assert (Hd1 : ¬ lh * inject_Z (workers p) == 0).
    { intros H. apply Qmult_integral in H as [H|H]; contradiction. }
    assert (Hd2 : ¬ inject_Z (workers p * STANDARD_WORK_HOURS) == 0).
    { rewrite inject_Z_zero_iff. unfold STANDARD_WORK_HOURS. lia. }
    destruct (cost_breakdown_closed (building_type p) mrates (cement p)
                (blocks p) (steel p) (sand p) (granite p) lh (labor_rate p)
                (inject_Z (length p * breadth p * storeys p) * m) Hmrates)
      as (rc & rb & rs & rd & rg & pr & mc & pc & _ & _ & _ & _ & _ & _ & _
          & Hmc & _ & Hpc & _).
    destruct (risk_components_returns
                (base_cost mc (labor_cost lh (labor_rate p)) pc)) as [rk Hrk].
    destruct (model_predict (preprocessor_transform
                [input_data p (labor_cost lh (labor_rate p)) (sv * av) m
                   (vertical_complexity (storeys p))])) as [|tc rest] eqn:Htc;
      [exfalso; exact (Hpredict _ Htc)|].
    eexists. apply estimate_Ok_steps.
    exists (inject_Z (length p * breadth p * storeys p) * m), lh.
    do 2 eexists. exists (sv * av), m, tc, mc, pc, rk.
    split; [apply calculate_gfa_Some, Hm|]. split; [exact Hlh|].
    split; [apply truediv_nonzero, Hd1|].
    split; [apply truediv_nonzero, Hd2|].
    split; [apply calculate_site_difficulty_Some; assumption|].
    split; [apply getitem_Some, Hm|].
    split; [rewrite Htc; reflexivity|].
    split; [exact Hmc|]. split; [exact Hpc|]. split; [exact Hrk|].
    reflexivity.
Qed.

(** X2.  The first unrecognized key decides the exception, in the order the
    branch subscripts the tables: the shape, then the building type, then
    the weather; the soil and the access come only after the two divisions,
    so they are reported when the area and the worker count are not zero. *)
Theorem estimate_key_errors (p : ProjectInput) :
  (SHAPE_COMPLEXITY !! shape p = None →
   estimate preprocessor_transform model_predict p
     = Raise (KeyError (shape p))) ∧
  (is_Some (SHAPE_COMPLEXITY !! shape p) →
   LABOR_PRODUCTIVITY_RATES !! building_type p = None →
   estimate preprocessor_transform model_predict p
     = Raise (KeyError (building_type p))) ∧
  (is_Some (SHAPE_COMPLEXITY !! shape p) →
   is_Some (LABOR_PRODUCTIVITY_RATES !! building_type p) →
   raises (weather_efficiency (weather p)) →
   estimate preprocessor_transform model_predict p
     = Raise (KeyError (weather p))) ∧
  (is_Some (SHAPE_COMPLEXITY !! shape p) →
   is_Some (LABOR_PRODUCTIVITY_RATES !! building_type p) →
   returns (weather_efficiency (weather p)) →
   (length p * breadth p * storeys p ≠ 0)%Z → (workers p ≠ 0)%Z →
   (soil_map !! soil p = None →
    estimate preprocessor_transform model_predict p
      = Raise (KeyError (soil p))) ∧
   (is_Some (soil_map !! soil p) → access_map !! access p = None →
    estimate preprocessor_transform model_predict p
      = Raise (KeyError (access p)))).
Proof.
  split; [|split; [|split]].
  - intros Hm. unfold estimate.
    rewrite (calculate_gfa_None _ _ _ _ Hm). reflexivity.
  - intros [m Hm] Hbt. unfold estimate.
    rewrite (calculate_gfa_Some _ _ _ _ _ Hm), bind_Ok.
    rewrite (calculate_labor_hours_no_type _ _ _ _ Hbt). reflexivity.
  - intros [m Hm] [rates Hbt] [e Hw]. unfold estimate.
    rewrite (calculate_gfa_Some _ _ _ _ _ Hm), bind_Ok.
    rewrite (calculate_labor_hours_no_weather _ _ _ _ rates e Hbt Hw).
    reflexivity.
  - intros Hshape Hbt Hw Hdims Hwk.
    destruct (estimate_hours p Hshape Hbt Hw) as (m & lh & Hm & Hlh & Hz).
    assert (Hlh0 : ¬ lh == 0) by (rewrite Hz; exact Hdims).
    assert (Hw0 : ¬ inject_Z (workers p) == 0)
      by (rewrite inject_Z_zero_iff; exact Hwk).
    assert (Hd1 : ¬ lh * inject_Z (workers p) == 0).
    { intros H. apply Qmult_integral in H as [H|H]; contradiction. }
    assert (Hd2 : ¬ inject_Z (workers p * STANDARD_WORK_HOURS) == 0).
    { rewrite inject_Z_zero_iff. unfold STANDARD_WORK_HOURS. lia. }
    split.
    + intros Hs. unfold estimate.
      rewrite (calculate_gfa_Some _ _ _ _ _ Hm), bind_Ok, Hlh, bind_Ok.
      rewrite (truediv_nonzero _ _ Hd1), bind_Ok.
      rewrite (truediv_nonzero _ _ Hd2), bind_Ok.
      rewrite (calculate_site_difficulty_no_soil _ _ Hs). reflexivity.
    + intros [sv Hsv] Ha. unfold estimate.
      rewrite (calculate_gfa_Some _ _ _ _ _ Hm), bind_Ok, Hlh, bind_Ok.
      rewrite (truediv_nonzero _ _ Hd1), bind_Ok.
      rewrite (truediv_nonzero _ _ Hd2), bind_Ok.
      rewrite (calculate_site_difficulty_no_access _ _ sv Hsv Ha).
      reflexivity.
Qed.

(** X3.  With a recognized shape, building type and weather, a zero area
    (a zero length, breadth or storey count) or a zero worker count makes
    the branch raise [ZeroDivisionError], whatever the soil and the access
    are: the labor productivity is computed before they are looked up. *)
Theorem estimate_zero_division (p : ProjectInput) :
  is_Some (SHAPE_COMPLEXITY !! shape p) →
  is_Some (LABOR_PRODUCTIVITY_RATES !! building_type p) →
  returns (weather_efficiency (weather p)) →
  (length p * breadth p * storeys p = 0)%Z ∨ workers p = 0%Z →
  estimate preprocessor_transform model_predict p = Raise ZeroDivisionError.
Proof.
  intros Hshape Hbt Hw Hzero.
  destruct (estimate_hours p Hshape Hbt Hw) as (m & lh & Hm & Hlh & Hz).
  assert (Hd : lh * inject_Z (workers p) == 0).
  { destruct Hzero as [H|H].
    - apply Hz in H. rewrite H. ring.
    - rewrite H. ring. }
  unfold estimate.
  rewrite (calculate_gfa_Some _ _ _ _ _ Hm), bind_Ok, Hlh, bind_Ok.
  rewrite (truediv_zero _ _ Hd). reflexivity.
Qed.

End EstimateDomain.

(** ** Ranges on form inputs *)

Lemma shape_multiplier_bounds (shape : string) (m : Q) :
  SHAPE_COMPLEXITY !! shape = Some m → 1 <= m ∧ m <= 1.25.
Proof. intros H. table_cases H; split; lra. Qed.

Lemma form_input_prices (p : ProjectInput) :
  form_input p = true →
  (0 < cement p)%Z ∧ (0 < blocks p)%Z ∧ (0 < steel p)%Z ∧ (0 < sand p)%Z ∧
  (0 < granite p)%Z ∧ (0 < labor_rate p)%Z.
Proof.
  unfold form_input, within. intros H.
  repeat (apply andb_prop in H as [H ?]). repeat split; lia.
Qed.

Lemma inject_Z_le (a b : Z) : (a <= b)%Z → inject_Z a <= inject_Z b.
Proof. intros H. rewrite <- Zle_Qle. exact H. Qed.

Lemma risk_components_eq (base : Q) :
  risk_components base =
  Ok [("Contingencies", base * 0.075); ("Preliminaries", base * 0.05);
      ("Design Risk", base * 0.02)].
Proof. reflexivity. Qed.

(** X4.  On every input the form can deliver, the estimate that is produced
    has a gross floor area between 100 and 125000 and strictly positive
    labor hours, labor productivity, project duration, labor cost, material
    cost, plant cost, base cost and risk components. *)
Theorem form_estimate_positive {Processed : Type}
    (preprocessor_transform : list (list (string * pyval)) → Processed)
    (model_predict : Processed → list Q) (p : ProjectInput) (e : Estimate) :
  form_input p = true →
  estimate preprocessor_transform model_predict p = Ok e →
  100 <= est_gfa e ∧ est_gfa e <= 125000 ∧
  0 < est_labor_hours e ∧ 0 < est_labor_productivity e ∧
  0 < est_project_duration e ∧ 0 < est_labor_cost e ∧
  0 < est_material_cost e ∧ 0 < est_plant_cost e ∧ 0 < est_base_cost e ∧
  Forall (λ kv, 0 < kv.2) (est_risk_components e).
Proof.
  intros Hp He.
  destruct (form_input_spec p Hp)
    as (Hl & Hb & Hs & Hwk & _ & [mrates Hmrates] & _ & _ & _).
  destruct (form_input_prices p Hp) as (Hc & Hbk & Hst & Hsd & Hg & Hlr).
  apply estimate_Ok_steps in He
    as (gfa & lh & lp & pd & sd & sc & tc & m & pc & rc & Hgfa & Hlh
        & Hlp & Hpd & _ & _ & _ & Hm & Hpc & Hrc & ->).
  simpl.
  destruct (calculate_gfa_Ok_inv _ _ _ _ _ Hgfa) as (mu & Hmu & ->).
  destruct (shape_multiplier_bounds _ _ Hmu) as [Hmu1 Hmu2].
  assert (Hlb : (100 <= length p * breadth p <= 10000)%Z) by nia.
  assert (Hlo : inject_Z 100 <= inject_Z (length p * breadth p * storeys p))
    by (apply inject_Z_le; nia).
  assert (Hhi : inject_Z (length p * breadth p * storeys p) <= inject_Z 100000)
    by (apply inject_Z_le; nia).
  change (inject_Z 100) with 100 in Hlo.
  change (inject_Z 100000) with 100000 in Hhi.
  set (area := inject_Z (length p * breadth p * storeys p)) in *.
  assert (Harea0 : 0 < area) by lra.
  assert (Hmu0 : 0 < mu) by lra.
  assert (Hgfa0 : 0 < area * mu) by nra.
  destruct (calculate_labor_hours_Ok_inv _ _ _ _ _ Hlh)
    as (rates & we & Hbt & Hw).
  destruct (calculate_labor_hours_pos (area * mu) (building_type p)
              (workers p) (weather p) rates we Hgfa0 Hbt Hw)
    as (lh' & Hlh' & Hlh0).
  assert (lh' = lh) as -> by congruence.
  assert (Hw0 : 0 < inject_Z (workers p)) by (apply inject_Z_pos; lia).
  assert (Hw8 : 0 < inject_Z (workers p * STANDARD_WORK_HOURS)).
  { apply inject_Z_pos. unfold STANDARD_WORK_HOURS. lia. }
  destruct (truediv_Ok_inv _ _ _ Hlp) as [_ ->].
  destruct (truediv_Ok_inv _ _ _ Hpd) as [_ ->].
  apply inject_Z_pos in Hc, Hbk, Hst, Hsd, Hg, Hlr.
  assert (Hlc : 0 < labor_cost lh (labor_rate p)).
  { rewrite labor_cost_eq. repeat apply Qmult_lt_0_compat;
      [assumption|assumption|lra]. }
  destruct (cost_breakdown_closed (building_type p) mrates (cement p)
              (blocks p) (steel p) (sand p) (granite p) lh (labor_rate p)
              (area * mu) Hmrates)
    as (rc' & rb & rs & rd & rg & pr & m' & pc' & _ & _ & _ & _ & _ & _
        & (Hrc0 & Hrb0 & Hrs0 & Hrd0 & Hrg0 & Hpr0) & Hm' & Hmeq & Hpc' & Hpeq).
  assert (m' = m) as -> by congruence.
  assert (pc' = pc) as -> by congruence.
  assert (Hm0 : 0 < m).
  { rewrite Hmeq.
    assert (0 < inject_Z (cement p) * rc' * (area * mu))
      by (repeat apply Qmult_lt_0_compat; assumption).
    assert (0 < inject_Z (blocks p) * rb * (area * mu))
      by (repeat apply Qmult_lt_0_compat; assumption).
    assert (0 < inject_Z (steel p) * rs * (area * mu))
      by (repeat apply Qmult_lt_0_compat; assumption).
    assert (0 < inject_Z (sand p) * rd * (area * mu))
      by (repeat apply Qmult_lt_0_compat; assumption).
    assert (0 < inject_Z (granite p) * rg * (area * mu))
      by (repeat apply Qmult_lt_0_compat; assumption).
    lra. }
  assert (Hpc0 : 0 < pc).
  { rewrite Hpeq. apply Qmult_lt_0_compat; [lra|assumption]. }
  assert (Hbase : 0 < base_cost m (labor_cost lh (labor_rate p)) pc)
    by (unfold base_cost; lra).
  rewrite risk_components_eq in Hrc. injection Hrc as <-.
  split; [nra|]. split; [nra|]. split; [exact Hlh0|].
  split; [apply Qdiv_pos; [exact Hgfa0|nra]|].
  split; [apply Qdiv_pos; assumption|].
  split; [exact Hlc|]. split; [exact Hm0|]. split; [exact Hpc0|].
  split; [exact Hbase|].
  repeat constructor; simpl; lra.
Qed.

Lemma form_estimate_positive_witness :
  ∃ e, estimate (λ rows, rows) (λ _, [1]) default_input = Ok e ∧
       100 <= est_gfa e ∧ est_gfa e <= 125000 ∧ 0 < est_labor_hours e ∧
       0 < est_base_cost e.
Proof.
  assert (Hp : form_input default_input = true) by (vm_compute; reflexivity).
  eexists. split; [vm_compute; reflexivity|].
  match goal with
  | |- context [est_gfa ?e] =>
      destruct (form_estimate_positive (λ rows, rows) (λ _, [1])
                  default_input e Hp)
        as (H1 & H2 & H3 & _ & _ & _ & _ & _ & H4 & _)
  end; [vm_compute; reflexivity|].
  repeat split; assumption.
Defined.

(** ** Labor hours, productivity and duration *)

(** The closed form with the bounds of its factors. *)
Lemma calculate_labor_hours_factors (gfa : Q) (bt : string) (c : Z)
    (w : string) (h : Q) :
  calculate_labor_hours gfa bt c w = Ok h →
  ∃ r ce we,
    0 < r ∧ crew_efficiency c = Ok ce ∧ 0.9 <= ce ∧
    weather_efficiency w = Ok we ∧ 0.8 <= we ∧
    (∀ gfa' c', ∃ ce' h',
       crew_efficiency c' = Ok ce' ∧ 0.9 <= ce' ∧
       calculate_labor_hours gfa' bt c' w = Ok h' ∧
       h' == r * gfa' / (ce' * we)) ∧
    h == r * gfa / (ce * we).
Proof.
  intros H.
  destruct (calculate_labor_hours_Ok_inv gfa bt c w h H)
    as (rates & we & Hbt & Hw).
  destruct (labor_rates_phases bt rates Hbt)
    as (f & s & fi & Hf & Hs & Hfi & Hf0 & Hs0 & Hfi0).
  destruct (weather_efficiency_bounds w we Hw) as [Hwl _].
  assert (Hall : ∀ gfa' c', ∃ ce' h',
            crew_efficiency c' = Ok ce' ∧ 0.9 <= ce' ∧
            calculate_labor_hours gfa' bt c' w = Ok h' ∧
            h' == (f + s + fi) * gfa' / (ce' * we)).
  { intros gfa' c'.
    destruct (crew_efficiency_returns c') as (ce' & Hce' & Hlo & _).
    exists ce'. eexists. split; [exact Hce'|]. split; [exact Hlo|]. split.
    - apply (calculate_labor_hours_Some gfa' bt c' w rates f s fi ce' we);
        try assumption. nra.
    - rewrite sum3. reflexivity. }
  destruct (Hall gfa c) as (ce & h' & Hce & Hlo & Hh' & Heq).
  assert (h' = h) as -> by congruence.
  exists (f + s + fi), ce, we.
  split; [lra|]. split; [exact Hce|]. split; [exact Hlo|].
  split; [exact Hw|]. split; [exact Hwl|]. split; [exact Hall|exact Heq].
Qed.

(** A larger crew never has a lower efficiency. *)
Lemma crew_efficiency_mono (c1 c2 : Z) (ce1 ce2 : Q) :
  (c1 <= c2)%Z → crew_efficiency c1 = Ok ce1 → crew_efficiency c2 = Ok ce2 →
  ce1 <= ce2.
Proof.
  intros Hc Hce1 Hce2.
  destruct (crew_efficiency_step c1) as (Hs1 & Hm1 & Hl1).
  destruct (crew_efficiency_step c2) as (Hs2 & Hm2 & Hl2).
  destruct (Z_le_gt_dec c2 14) as [H2|H2].
  - rewrite Hs1 in Hce1 by lia. rewrite Hs2 in Hce2 by lia.
    injection Hce1 as <-. injection Hce2 as <-. lra.
  - destruct (Z_le_gt_dec c2 30) as [H2'|H2'].
    + rewrite Hm2 in Hce2 by lia. injection Hce2 as <-.
      destruct (Z_le_gt_dec c1 14) as [H1|H1].
      * rewrite Hs1 in Hce1 by lia. injection Hce1 as <-. lra.
      * rewrite Hm1 in Hce1 by lia. injection Hce1 as <-. lra.
    + rewrite Hl2 in Hce2 by lia. injection Hce2 as <-.
      destruct (crew_efficiency_returns c1) as (ce & Hce & _ & Hhi).
      assert (ce = ce1) as -> by congruence. exact Hhi.
Qed.

(** For a positive area, a larger crew never needs more hours. *)
Lemma calculate_labor_hours_crew_le (gfa : Q) (bt : string) (c1 c2 : Z)
    (w : string) (h1 : Q) :
  0 < gfa → (c1 <= c2)%Z →
  calculate_labor_hours gfa bt c1 w = Ok h1 →
  ∃ h2, calculate_labor_hours gfa bt c2 w = Ok h2 ∧ h2 <= h1 ∧ 0 < h2.
Proof.
  intros Hgfa Hc H.
  destruct (calculate_labor_hours_factors gfa bt c1 w h1 H)
    as (r & ce1 & we & Hr & Hce1 & Hlo1 & Hw & Hwl & Hall & Heq1).
  destruct (Hall gfa c2) as (ce2 & h2 & Hce2 & Hlo2 & Hh2 & Heq2).
  pose proof (crew_efficiency_mono c1 c2 ce1 ce2 Hc Hce1 Hce2) as Hle.
  exists h2. split; [exact Hh2|]. rewrite Heq1, Heq2. split.
  - destruct (Qle_lt_or_eq _ _ Hle) as [Hlt|Heq].
    + apply Qlt_le_weak. apply Qdiv_antitone; nra.
    + rewrite Heq. apply Qle_refl.
  - apply Qdiv_pos; nra.
Qed.

(** X6.  Adding workers never increases the labor hours: for a positive
    area the hours returned for a larger crew are at most those of a smaller
    one, and they are equal when both sizes fall in the same band. *)
Theorem calculate_labor_hours_crew_antitone (gfa : Q) (bt : string)
    (c1 c2 : Z) (w : string) (h1 : Q) :
  0 < gfa → (c1 <= c2)%Z →
  calculate_labor_hours gfa bt c1 w = Ok h1 →
  ∃ h2, calculate_labor_hours gfa bt c2 w = Ok h2 ∧ h2 <= h1 ∧
        (crew_size_key c1 = crew_size_key c2 → h2 = h1).
Proof.
  intros Hgfa Hc H.
  destruct (calculate_labor_hours_crew_le gfa bt c1 c2 w h1 Hgfa Hc H)
    as (h2 & Hh2 & Hle & _).
  exists h2. split; [exact Hh2|]. split; [exact Hle|].
  intros Hkey.
  rewrite (calculate_labor_hours_band gfa bt c1 c2 w Hkey) in H. congruence.
Qed.

Lemma calculate_labor_hours_crew_antitone_witness :
  0 < 600 ∧ (12 <= 45)%Z ∧
  ∃ h1, calculate_labor_hours 600 "Industrial" 12 "Poor" = Ok h1 ∧
  ∃ h2, calculate_labor_hours 600 "Industrial" 45 "Poor" = Ok h2 ∧
        h2 <= h1.
Proof.
  assert (Hgfa : 0 < 600) by reflexivity.
  assert (Hc : (12 <= 45)%Z) by lia.
  split; [exact Hgfa|]. split; [exact Hc|].
  assert (H : ∃ h1, calculate_labor_hours 600 "Industrial" 12 "Poor" = Ok h1)
    by (eexists; vm_compute; reflexivity).
  destruct H as [h1 H1]. exists h1. split; [exact H1|].
  destruct (calculate_labor_hours_crew_antitone 600 "Industrial" 12 45
              "Poor" h1 Hgfa Hc H1) as (h2 & Hh2 & Hle & _).
  exists h2. split; assumption.
Defined.

(** ** The charts *)

Lemma fig_productivity_Some (bt : string) (gfa : Q) (rates : gmap string Q)
    (f s fi : Q) :
  LABOR_PRODUCTIVITY_RATES !! bt = Some rates →
  rates !! "foundation" = Some f → rates !! "structural" = Some s →
  rates !! "finishing" = Some fi →
  fig_productivity bt gfa =
  Ok {| fig_names := ["Foundation"; "Structural"; "Finishing"];
        fig_values := [f * gfa; s * gfa; fi * gfa] |}.
Proof.
  intros Hbt Hf Hs Hfi. unfold fig_productivity.
  rewrite (getitem2_Some _ _ _ _ _ Hbt Hf), bind_Ok.
  rewrite (getitem2_Some _ _ _ _ _ Hbt Hs), bind_Ok.
  rewrite (getitem2_Some _ _ _ _ _ Hbt Hfi), bind_Ok.
  reflexivity.
Qed.

(** X8.  After an estimate is produced the three charts are always drawn
    (no lookup of the chart code can fail).  The cost pie has the slices
    Materials, Labor, Plant and Risks, in that order: the material, labor
    and plant costs, which add up to the base cost as line 243 adds them,
    and the total of the risk pie.  The risk pie has the slices
    Contingencies, Preliminaries and Design Risk, holding base cost x 0.075,
    x 0.05 and x 0.02. *)
Theorem charts_cost_distribution {Processed : Type}
    (preprocessor_transform : list (list (string * pyval)) → Processed)
    (model_predict : Processed → list Q) (p : ProjectInput) (e : Estimate) :
  estimate preprocessor_transform model_predict p = Ok e →
  ∃ main risk productivity,
    charts p e = Ok (main, risk, productivity) ∧
    fig_names main = ["Materials"; "Labor"; "Plant"; "Risks"] ∧
    fig_values main =
      [est_material_cost e; est_labor_cost e; est_plant_cost e;
       sum (fig_values risk)] ∧
    est_material_cost e + est_labor_cost e + est_plant_cost e
      == est_base_cost e ∧
    fig_names risk = ["Contingencies"; "Preliminaries"; "Design Risk"] ∧
    fig_values risk =
      [est_base_cost e * 0.075; est_base_cost e * 0.05;
       est_base_cost e * 0.02].
Proof.
  intros He.
  apply estimate_Ok_steps in He
    as (gfa & lh & lp & pd & sd & sc & tc & m & pc & rc & _ & Hlh
        & _ & _ & _ & _ & _ & _ & _ & Hrc & ->).
  destruct (calculate_labor_hours_Ok_inv _ _ _ _ _ Hlh)
    as (rates & we & Hbt & _).
  destruct (labor_rates_phases _ _ Hbt) as (f & s & fi & Hf & Hs & Hfi & _).
  rewrite risk_components_eq in Hrc. injection Hrc as <-.
  unfold charts. simpl.
  rewrite (fig_productivity_Some _ gfa rates f s fi Hbt Hf Hs Hfi), bind_Ok.
  do 3 eexists. split; [reflexivity|]. simpl.
  split; [reflexivity|]. split; [reflexivity|].
  split; [unfold base_cost; reflexivity|].
  split; reflexivity.
Qed.

Lemma charts_cost_distribution_witness :
  ∃ e main risk productivity,
    estimate (λ rows, rows) (λ _, [1]) default_input = Ok e ∧
    charts default_input e = Ok (main, risk, productivity) ∧
    fig_names main = ["Materials"; "Labor"; "Plant"; "Risks"].
Proof.
  assert (H : ∃ e, estimate (λ rows : list (list (string * pyval)), rows)
                     (λ _, [1]) default_input = Ok e)
    by (eexists; vm_compute; reflexivity).
  destruct H as [e He]. exists e.
  destruct (charts_cost_distribution _ _ default_input e He)
    as (main & risk & productivity & Hc & Hn & _).
  exists main, risk, productivity. repeat split; assumption.
Defined.



(** ** Ranges of the calculators *)

(** X10.  For a positive footprint length x breadth x storeys, the gross
    floor area is never below the footprint and never above 1.25 times it,
    and it equals the footprint exactly for the Rectangular shape. *)
Theorem calculate_gfa_footprint (l b s : Z) (shape : string) (gfa : Q) :
  (0 < l * b * s)%Z →
  calculate_gfa l b s shape = Ok gfa →
  inject_Z (l * b * s) <= gfa ∧ gfa <= 1.25 * inject_Z (l * b * s) ∧
  (gfa == inject_Z (l * b * s) ↔ shape = "Rectangular").
Proof.
  intros Hpos H.
  destruct (calculate_gfa_Ok_inv _ _ _ _ _ H) as (m & Hm & ->).
  apply inject_Z_pos in Hpos. set (area := inject_Z (l * b * s)) in *.
  destruct (shape_multiplier_bounds _ _ Hm) as [Hlo Hhi].
  split; [nra|]. split; [nra|].
  table_cases Hm; (split; [intros Heq; try reflexivity; exfalso; nra
                          |intros Hs; try discriminate Hs; ring]).
Qed.

Lemma calculate_gfa_footprint_witness :
  (0 < 20 * 15 * 2)%Z ∧
  ∃ gfa, calculate_gfa 20 15 2 "U-Shaped" = Ok gfa ∧
         inject_Z (20 * 15 * 2) <= gfa ∧
         gfa <= 1.25 * inject_Z (20 * 15 * 2).
Proof.
  assert (Hpos : (0 < 20 * 15 * 2)%Z) by lia.
  split; [exact Hpos|]. eexists. split; [vm_compute; reflexivity|].
  match goal with
  | |- _ <= ?g ∧ _ =>
      destruct (calculate_gfa_footprint 20 15 2 "U-Shaped" g Hpos)
        as (Hlo & Hhi & _)
  end; [vm_compute; reflexivity|].
  split; assumption.
Defined.

(** ** The rate tables *)

(** X12.  The three tables indexed by building type have the same keys, so
    a type offered by the form (a key of [MATERIAL_RATES]) is never missing
    from the labor or the plant table; and the options of the soil, access
    and weather select boxes are exactly the keys the calculators accept. *)
Theorem tables_share_keys :
  (∀ bt : string,
     (is_Some (MATERIAL_RATES !! bt) ↔ is_Some (PLANT_RATES !! bt)) ∧
     (is_Some (MATERIAL_RATES !! bt) ↔
      is_Some (LABOR_PRODUCTIVITY_RATES !! bt))) ∧
  (∀ k : string, k ∈ ["Rocky"; "Sandy"; "Clay"] ↔ is_Some (soil_map !! k)) ∧
  (∀ k : string,
     k ∈ ["Good"; "Average"; "Poor"] ↔ is_Some (access_map !! k)) ∧
  (∀ k : string,
     k ∈ ["Good"; "Average"; "Poor"] ↔ returns (weather_efficiency k)).
Proof.
  assert (Hin : ∀ (k : string) (ks : list string) (P : string → Prop),
            Forall P ks → k ∈ ks → P k).
  { intros k ks P HP Hk. rewrite Forall_forall in HP. apply HP, Hk. }
  split; [|split; [|split]].
  - intros bt. split; split.
    + intros [r H]. table_cases H; eexists; reflexivity.
    + intros [r H]. table_cases H; eexists; reflexivity.
    + apply material_labor_same_keys.
    + apply labor_material_same_keys.
  - intros k. split.
    + apply (Hin k _ (λ k, is_Some (soil_map !! k))).
      repeat (constructor; [eexists; reflexivity|]). constructor.
    + intros [v H]. table_cases H; apply list_elem_of_In; simpl; tauto.
  - intros k. split.
    + apply (Hin k _ (λ k, is_Some (access_map !! k))).
      repeat (constructor; [eexists; reflexivity|]). constructor.
    + intros [v H]. table_cases H; apply list_elem_of_In; simpl; tauto.
  - intros k. split.
    + apply (Hin k _ (λ k, returns (weather_efficiency k))).
      repeat (constructor; [eexists; reflexivity|]). constructor.
    + intros [v H]. apply weather_efficiency_Ok in H.
      repeat (apply elem_of_cons in H as [H|H];
              [injection H as -> _; apply list_elem_of_In; simpl; tauto|]).
      apply elem_of_nil in H. destruct H.
Qed.

Lemma tables_share_keys_witness :
  is_Some (MATERIAL_RATES !! "Commercial") ∧
  is_Some (LABOR_PRODUCTIVITY_RATES !! "Commercial") ∧
  "Sandy" ∈ ["Rocky"; "Sandy"; "Clay"].
Proof.
  assert (H : is_Some (MATERIAL_RATES !! "Commercial"))
    by (eexists; reflexivity).
  split; [exact H|]. split.
  - exact (proj1 (proj2 (proj1 tables_share_keys "Commercial")) H).
  - apply (proj2 (proj1 (proj2 tables_share_keys) "Sandy")).
    eexists. reflexivity.
Defined.

(** ** The deterministic breakdown *)

Lemma Qdiv_lt_compat (a b d : Q) : a < b → 0 < d → a / d < b / d.
Proof.
  intros Hab Hd. unfold Qdiv. apply Qmult_lt_compat_r; [|exact Hab].
  apply Qinv_lt_0_compat, Hd.
Qed.

Lemma labor_hours_of_type (gfa : Q) (bt : string) (c : Z) (w : string)
    (f s fi ce we : Q) :
  LABOR_PRODUCTIVITY_RATES !! bt =
    Some (list_to_map [("foundation", f); ("structural", s);
                       ("finishing", fi)]) →
  crew_efficiency c = Ok ce → weather_efficiency w = Ok we → 0 < ce * we →
  ∃ h, calculate_labor_hours gfa bt c w = Ok h ∧
       h == (f + s + fi) * gfa / (ce * we).
Proof.
  intros Hbt Hce Hw Hd. eexists. split.
  - apply (calculate_labor_hours_Some gfa bt c w _ f s fi ce we Hbt);
      try reflexivity; try assumption. lra.
  - rewrite sum3. reflexivity.
Qed.

Lemma breakdown_of_type (bt : string) (c b s d g : Z) (gfa l : Q)
    (rc rb rs rd rg pr : Q) :
  MATERIAL_RATES !! bt =
    Some (list_to_map [("cement", rc); ("blocks", rb); ("steel", rs);
                       ("sand", rd); ("granite", rg)]) →
  PLANT_RATES !! bt = Some pr →
  ∃ m p, material_cost bt c b s d g gfa = Ok m ∧
         plant_cost m l bt = Ok p ∧
         m == (inject_Z c * rc + inject_Z b * rb + inject_Z s * rs +
               inject_Z d * rd + inject_Z g * rg) * gfa ∧
         base_cost m l p == (m + l) * (1 + pr).
Proof.
  intros Hbt Hpr. do 2 eexists.
  split; [apply (material_cost_Some bt c b s d g gfa _ rc rb rs rd rg Hbt);
          reflexivity|].
  split; [apply plant_cost_Some, Hpr|].
  split; [rewrite sum5; ring|]. unfold base_cost. ring.
Qed.

(** X14.  At the same positive prices, labor rate and area, and for the same
    crew and weather, the labor hours, the material cost and the base cost
    all increase strictly from Residential to Commercial to Industrial. *)
Theorem building_type_order (c b s d g lr crew : Z) (gfa : Q) (w : string)
    (we : Q) :
  (0 < c)%Z → (0 < b)%Z → (0 < s)%Z → (0 < d)%Z → (0 < g)%Z → (0 < lr)%Z →
  0 < gfa → weather_efficiency w = Ok we →
  ∃ hR hC hI mR mC mI pR pC pI,
    calculate_labor_hours gfa "Residential" crew w = Ok hR ∧
    calculate_labor_hours gfa "Commercial" crew w = Ok hC ∧
    calculate_labor_hours gfa "Industrial" crew w = Ok hI ∧
    material_cost "Residential" c b s d g gfa = Ok mR ∧
    material_cost "Commercial" c b s d g gfa = Ok mC ∧
    material_cost "Industrial" c b s d g gfa = Ok mI ∧
    plant_cost mR (labor_cost hR lr) "Residential" = Ok pR ∧
    plant_cost mC (labor_cost hC lr) "Commercial" = Ok pC ∧
    plant_cost mI (labor_cost hI lr) "Industrial" = Ok pI ∧
    hR < hC ∧ hC < hI ∧ mR < mC ∧ mC < mI ∧
    base_cost mR (labor_cost hR lr) pR < base_cost mC (labor_cost hC lr) pC ∧
    base_cost mC (labor_cost hC lr) pC < base_cost mI (labor_cost hI lr) pI.
Proof.
  intros Hc Hb Hs Hd Hg Hlr Hgfa Hw.
  destruct (divisor_bound crew w we Hw) as (ce & Hce & _ & Hdiv).
  destruct (labor_hours_of_type gfa "Residential" crew w 1.2 2.0 1.5 ce we
              eq_refl Hce Hw Hdiv) as (hR & HhR & HeR).
  destruct (labor_hours_of_type gfa "Commercial" crew w 1.5 2.5 2.0 ce we
              eq_refl Hce Hw Hdiv) as (hC & HhC & HeC).
  destruct (labor_hours_of_type gfa "Industrial" crew w 2.0 3.0 2.5 ce we
              eq_refl Hce Hw Hdiv) as (hI & HhI & HeI).
  destruct (breakdown_of_type "Residential" c b s d g gfa (labor_cost hR lr)
              0.5 10 0.025 0.05 0.03 0.08 eq_refl eq_refl)
    as (mR & pR & HmR & HpR & HmeR & HbR).
  destruct (breakdown_of_type "Commercial" c b s d g gfa (labor_cost hC lr)
              0.7 15 0.04 0.07 0.05 0.12 eq_refl eq_refl)
    as (mC & pC & HmC & HpC & HmeC & HbC).
  destruct (breakdown_of_type "Industrial" c b s d g gfa (labor_cost hI lr)
              1.0 20 0.06 0.10 0.08 0.18 eq_refl eq_refl)
    as (mI & pI & HmI & HpI & HmeI & HbI).
  exists hR, hC, hI, mR, mC, mI, pR, pC, pI.
  do 9 (split; [assumption|]).
  apply inject_Z_pos in Hc, Hb, Hs, Hd, Hg, Hlr.
  assert (HRC : hR < hC).
  { rewrite HeR, HeC. apply Qdiv_lt_compat; [nra|exact Hdiv]. }
  assert (HCI : hC < hI).
  { rewrite HeC, HeI. apply Qdiv_lt_compat; [nra|exact Hdiv]. }
  assert (HhR0 : 0 < hR).
  { rewrite HeR. apply Qdiv_pos; [nra|exact Hdiv]. }
  assert (Hcg : 0 < inject_Z c * gfa) by (apply Qmult_lt_0_compat; assumption).
  assert (Hbg : 0 < inject_Z b * gfa) by (apply Qmult_lt_0_compat; assumption).
  assert (Hsg : 0 < inject_Z s * gfa) by (apply Qmult_lt_0_compat; assumption).
  assert (Hdg : 0 < inject_Z d * gfa) by (apply Qmult_lt_0_compat; assumption).
  assert (Hgg : 0 < inject_Z g * gfa) by (apply Qmult_lt_0_compat; assumption).
  assert (HmR0 : 0 < mR) by (rewrite HmeR; nra).
  assert (HmRC : mR < mC) by (rewrite HmeR, HmeC; nra).
  assert (HmCI : mC < mI) by (rewrite HmeC, HmeI; nra).
  assert (HlR0 : 0 < labor_cost hR lr).
  { rewrite labor_cost_eq. repeat apply Qmult_lt_0_compat; [assumption|assumption|lra]. }
  assert (HlRC : labor_cost hR lr < labor_cost hC lr).
  { rewrite !labor_cost_eq. nra. }
  assert (HlCI : labor_cost hC lr < labor_cost hI lr).
  { rewrite !labor_cost_eq. nra. }
  do 4 (split; [assumption|]).
  rewrite HbR, HbC, HbI. split; nra.
Qed.

Lemma building_type_order_witness :
  ∃ hR hC hI,
    calculate_labor_hours 600 "Residential" 20 "Average" = Ok hR ∧
    calculate_labor_hours 600 "Commercial" 20 "Average" = Ok hC ∧
    calculate_labor_hours 600 "Industrial" 20 "Average" = Ok hI ∧
    hR < hC ∧ hC < hI.
Proof.
  destruct (building_type_order 9800 600 850000 35000 19500 1000 20 600
              "Average" 0.9 eq_refl eq_refl eq_refl eq_refl eq_refl eq_refl
              eq_refl eq_refl)
    as (hR & hC & hI & mR & mC & mI & pR & pC & pI & HhR & HhC & HhI
        & _ & _ & _ & _ & _ & _ & HRC & HCI & _).
  exists hR, hC, hI. repeat split; assumption.
Defined.

(** ** Duration and the model call *)

(** X15.  With the same building, type and weather, a larger crew gives a
    strictly shorter project duration and never more labor hours. *)
Theorem project_duration_decreases {Processed : Type}
    (preprocessor_transform : list (list (string * pyval)) → Processed)
    (model_predict : Processed → list Q)
    (p1 p2 : ProjectInput) (e1 e2 : Estimate) :
  estimate preprocessor_transform model_predict p1 = Ok e1 →
  estimate preprocessor_transform model_predict p2 = Ok e2 →
  length p1 = length p2 → breadth p1 = breadth p2 →
  storeys p1 = storeys p2 → shape p1 = shape p2 →
  building_type p1 = building_type p2 → weather p1 = weather p2 →
  (0 < length p1 * breadth p1 * storeys p1)%Z →
  (0 < workers p1 < workers p2)%Z →
  est_project_duration e2 < est_project_duration e1 ∧
  est_labor_hours e2 <= est_labor_hours e1.
Proof.
  intros H1 H2 Hl Hb Hs Hsh Hbt Hwe Hpos Hwk.
  apply estimate_Ok_steps in H1
    as (gfa1 & lh1 & lp1 & pd1 & sd1 & sc1 & tc1 & m1 & pc1 & rc1 & Hgfa1
        & Hlh1 & _ & Hpd1 & _ & _ & _ & _ & _ & _ & ->).
  apply estimate_Ok_steps in H2
    as (gfa2 & lh2 & lp2 & pd2 & sd2 & sc2 & tc2 & m2 & pc2 & rc2 & Hgfa2
        & Hlh2 & _ & Hpd2 & _ & _ & _ & _ & _ & _ & ->).
  simpl. rewrite <- Hl, <- Hb, <- Hs, <- Hsh, <- Hbt, <- Hwe in *.
  assert (gfa2 = gfa1) as -> by congruence.
  destruct (calculate_gfa_Ok_inv _ _ _ _ _ Hgfa1) as (mu & Hmu & ->).
  pose proof (shape_multiplier_pos _ _ Hmu) as Hmu0.
  apply inject_Z_pos in Hpos.
  assert (Hgfa0 : 0 < inject_Z (length p1 * breadth p1 * storeys p1) * mu)
    by (apply Qmult_lt_0_compat; assumption).
  destruct (calculate_labor_hours_crew_le _ _ (workers p1) (workers p2) _ _
              Hgfa0 ltac:(lia) Hlh1) as (lh2' & Hlh2' & Hle & Hlh20).
  assert (lh2' = lh2) as -> by congruence.
  destruct (truediv_Ok_inv _ _ _ Hpd1) as [_ ->].
  destruct (truediv_Ok_inv _ _ _ Hpd2) as [_ ->].
  split; [|exact Hle].
  assert (Hd1 : 0 < inject_Z (workers p1 * STANDARD_WORK_HOURS)).
  { apply inject_Z_pos. unfold STANDARD_WORK_HOURS. lia. }
  assert (Hd12 : inject_Z (workers p1 * STANDARD_WORK_HOURS)
                 < inject_Z (workers p2 * STANDARD_WORK_HOURS)).
  { rewrite <- Zlt_Qlt. unfold STANDARD_WORK_HOURS. lia. }
  apply Qlt_le_trans
    with (y := lh2 / inject_Z (workers p1 * STANDARD_WORK_HOURS)).
  - apply Qdiv_antitone; assumption.
  - unfold Qdiv. apply Qmult_le_compat_r; [exact Hle|].
    apply Qlt_le_weak, Qinv_lt_0_compat, Hd1.
Qed.

Lemma project_duration_decreases_witness :
  ∃ e1 e2,
    estimate (λ rows, rows) (λ _, [1]) default_input = Ok e1 ∧
    estimate (λ rows, rows) (λ _, [1])
      {| length := 20; breadth := 15; storeys := 2; shape := "Rectangular";
         building_type := "Residential"; location := "Urban";
         soil := "Rocky"; access := "Good"; weather := "Good";
         cement := 9800; blocks := 600; steel := 850000; sand := 35000;
         granite := 19500; labor_rate := 1000; workers := 25; permit := 3 |}
      = Ok e2 ∧
    est_project_duration e2 < est_project_duration e1.
Proof.
  do 2 eexists. split; [vm_compute; reflexivity|].
  split; [vm_compute; reflexivity|].
  eapply proj1.
  eapply (project_duration_decreases (λ rows, rows) (λ _, [1])
            default_input
            {| length := 20; breadth := 15; storeys := 2;
               shape := "Rectangular"; building_type := "Residential";
               location := "Urban"; soil := "Rocky"; access := "Good";
               weather := "Good"; cement := 9800; blocks := 600;
               steel := 850000; sand := 35000; granite := 19500;
               labor_rate := 1000; workers := 25; permit := 3 |});
    first [vm_compute; reflexivity | simpl; lia].
Defined.

(** X16.  When every table lookup and both divisions succeed but the model
    returns no prediction, the branch raises [IndexError] at
    [model.predict(processed)[0]]. *)
Theorem estimate_index_error {Processed : Type}
    (preprocessor_transform : list (list (string * pyval)) → Processed)
    (model_predict : Processed → list Q) (p : ProjectInput) :
  is_Some (SHAPE_COMPLEXITY !! shape p) →
  is_Some (LABOR_PRODUCTIVITY_RATES !! building_type p) →
  returns (weather_efficiency (weather p)) →
  is_Some (soil_map !! soil p) → is_Some (access_map !! access p) →
  (length p * breadth p * storeys p ≠ 0)%Z → (workers p ≠ 0)%Z →
  (∀ x, model_predict x = []) →
  estimate preprocessor_transform model_predict p = Raise IndexError.
Proof.
  intros Hshape Hbt Hw [sv Hsv] [av Hav] Hdims Hwk Hempty.
  destruct (estimate_hours p Hshape Hbt Hw) as (m & lh & Hm & Hlh & Hz).
  assert (Hlh0 : ¬ lh == 0) by (rewrite Hz; exact Hdims).
  assert (Hw0 : ¬ inject_Z (workers p) == 0)
    by (rewrite inject_Z_zero_iff; exact Hwk).
  assert (Hd1 : ¬ lh * inject_Z (workers p) == 0).
  { intros H. apply Qmult_integral in H as [H|H]; contradiction. }
  assert (Hd2 : ¬ inject_Z (workers p * STANDARD_WORK_HOURS) == 0).
  { rewrite inject_Z_zero_iff. unfold STANDARD_WORK_HOURS. lia. }
  unfold estimate.
  rewrite (calculate_gfa_Some _ _ _ _ _ Hm), bind_Ok, Hlh, bind_Ok.
  rewrite (truediv_nonzero _ _ Hd1), bind_Ok.
  rewrite (truediv_nonzero _ _ Hd2), bind_Ok.
  rewrite (calculate_site_difficulty_Some _ _ _ _ Hsv Hav), bind_Ok.
  rewrite (getitem_Some _ _ _ Hm), bind_Ok. cbv zeta.
  rewrite Hempty. reflexivity.
Qed.

(** ** Instances of the failure modes *)

Lemma estimate_returns_iff_witness :
  (∀ x : list (list (string * pyval)),
     (λ _ : list (list (string * pyval)), [1]) x ≠ []) ∧
  returns (estimate (λ rows, rows) (λ _, [1]) default_input).
Proof.
  assert (Hm : ∀ x : list (list (string * pyval)),
             (λ _ : list (list (string * pyval)), [1]) x ≠ [])
    by discriminate.
  split; [exact Hm|].
  apply (proj2 (estimate_returns_iff (λ rows, rows) (λ _, [1])
                  default_input Hm)).
  repeat split; try (eexists; reflexivity); simpl; lia.
Defined.

Lemma estimate_key_errors_witness :
  SHAPE_COMPLEXITY !! "Triangular" = None ∧
  estimate (λ rows, rows) (λ _, [1])
    {| length := 20; breadth := 15; storeys := 2; shape := "Triangular";
       building_type := "Residential"; location := "Urban";
       soil := "Rocky"; access := "Good"; weather := "Good";
       cement := 9800; blocks := 600; steel := 850000; sand := 35000;
       granite := 19500; labor_rate := 1000; workers := 20; permit := 3 |}
  = Raise (KeyError "Triangular").
Proof.
  assert (H : SHAPE_COMPLEXITY !! "Triangular" = None) by reflexivity.
  split; [exact H|].
  exact (proj1 (estimate_key_errors (λ rows, rows) (λ _, [1])
                  {| length := 20; breadth := 15; storeys := 2;
                     shape := "Triangular"; building_type := "Residential";
                     location := "Urban"; soil := "Rocky"; access := "Good";
                     weather := "Good"; cement := 9800; blocks := 600;
                     steel := 850000; sand := 35000; granite := 19500;
                     labor_rate := 1000; workers := 20; permit := 3 |}) H).
Defined.

Lemma estimate_zero_division_witness :
  estimate (λ rows, rows) (λ _, [1])
    {| length := 20; breadth := 15; storeys := 0; shape := "Rectangular";
       building_type := "Residential"; location := "Urban";
       soil := "Gravel"; access := "Good"; weather := "Good";
       cement := 9800; blocks := 600; steel := 850000; sand := 35000;
       granite := 19500; labor_rate := 1000; workers := 20; permit := 3 |}
  = Raise ZeroDivisionError.
Proof.
  apply estimate_zero_division; simpl.
  - eexists. reflexivity.
  - eexists. reflexivity.
  - eexists. reflexivity.
  - left. reflexivity.
Defined.

Lemma estimate_index_error_witness :
  estimate (λ rows, rows) (λ _, []) default_input = Raise IndexError.
Proof.
  apply estimate_index_error; simpl;
    first [eexists; reflexivity | lia | reflexivity].
Defined.

(** * The values the calculators return, in binary64 *)

(** Two closed doubles that compare unequal are different terms. *)
Ltac float_bool := vm_compute; reflexivity.

Lemma of_int_small (z : Z) :
  (0 <= z < 2 ^ 63)%Z →
  FloatOps.SF2Prim
    (SpecFloat.binary_normalize FloatOps.prec FloatOps.emax z 0 false)
  = of_uint63 (Uint63.of_Z z).
Proof.
  intros Hz.
  rewrite <- (FloatAxioms.SF2Prim_Prim2SF (of_uint63 (Uint63.of_Z z))).
  rewrite FloatAxioms.of_uint63_spec, Uint63.of_Z_spec.
  rewrite Z.mod_small; [reflexivity|exact Hz].
Qed.

Lemma all_from_spec (P : Z → bool) (n : nat) (a : Z) :
  Binary64.all_from n a P = true →
  ∀ z, (a <= z < a + Z.of_nat n)%Z → P z = true.
Proof.
  revert a. induction n as [|n IH]; intros a H z Hz; [lia|].
  simpl in H. apply andb_prop in H as [Ha Hrest].
  destruct (Z.eq_dec z a) as [->|Hne]; [exact Ha|].
  apply (IH (a + 1)%Z Hrest). lia.
Qed.

(** Every footprint the form can produce passes the checks. *)
Lemma gfa_check_all :
  Binary64.all_from (Z.to_nat 99901) 100 Binary64.gfa_check = true.
Proof. vm_compute. reflexivity. Qed.

Lemma gfa_check_range (area : Z) :
  (100 <= area <= 100000)%Z → Binary64.gfa_check area = true.
Proof.
  intros H. apply (all_from_spec _ _ _ gfa_check_all).
  rewrite Z2Nat.id by lia. lia.
Qed.

Lemma form_footprint (l b s : Z) :
  (10 <= l <= 100)%Z → (10 <= b <= 100)%Z → (1 <= s <= 10)%Z →
  (100 <= l * b * s <= 100000)%Z.
Proof.
  intros Hl Hb Hs. assert (100 <= l * b <= 10000)%Z by nia. nia.
Qed.

Lemma binary64_calculate_gfa_Some (l b s : Z) (shape : string) (m : float) :
  Binary64.SHAPE_COMPLEXITY !! shape = Some m →
  Binary64.calculate_gfa l b s shape =
  (base ← Binary64.of_int (l * b * s); mret (base * m)%float).
Proof.
  intros H. unfold Binary64.calculate_gfa.
  rewrite (getitem_Some _ _ _ H). reflexivity.
Qed.

(** On a footprint of the form, the conversion is finite and the multiplied
    area passes the check of its shape. *)
Lemma gfa_near_returns (l b s : Z) (shape : string) (m : float)
    (num den : Z) :
  (100 <= l * b * s <= 100000)%Z →
  Binary64.SHAPE_COMPLEXITY !! shape = Some m →
  Binary64.gfa_near num den m (l * b * s) = true →
  ∃ f v,
    Binary64.of_int (l * b * s) = Ok f ∧
    Binary64.calculate_gfa l b s shape = Ok v ∧ v = (f * m)%float ∧
    (next_down (Binary64.nearest (l * b * s * num) den) <=? v)%float = true ∧
    (v <=? next_up (Binary64.nearest (l * b * s * num) den))%float = true.
Proof.
  intros Harea Hm Hnear. unfold Binary64.gfa_near in Hnear.
  apply andb_prop in Hnear as [Hnear Hup].
  apply andb_prop in Hnear as [Hfin Hdown].
  apply negb_true_iff in Hfin.
  assert (Hconv : Binary64.of_int (l * b * s)
                  = Ok (of_uint63 (Uint63.of_Z (l * b * s)))).
  { unfold Binary64.of_int. rewrite of_int_small by lia.
    rewrite Hfin. reflexivity. }
  exists (of_uint63 (Uint63.of_Z (l * b * s))).
  eexists. split; [exact Hconv|]. split.
  - rewrite (binary64_calculate_gfa_Some _ _ _ _ _ Hm), Hconv. reflexivity.
  - split; [reflexivity|]. split; assumption.
Qed.

(** C2, as the claim states it, fails: for length 10, breadth 10, one
    storey and the L-Shaped multiplier the returned double is
    114.99999999999999; it is neither the double 115 nor, as a rational,
    the product 10 x 10 x 1 x 1.15, nor the product of 100 with the double
    stored for 1.15. *)
Lemma calculate_gfa_not_exact :
  ∃ v q m,
    Binary64.calculate_gfa 10 10 1 "L-Shaped" = Ok v ∧
    (v =? 115)%float = false ∧
    Binary64.to_Q v = Some q ∧ ¬ q == 10 * 10 * 1 * 1.15 ∧
    Binary64.to_Q 1.15%float = Some m ∧ ¬ q == 10 * 10 * 1 * m.
Proof.
  do 3 eexists. split; [float_bool|]. split; [float_bool|].
  split; [float_bool|]. split; [apply Qeq_bool_neq; float_bool|].
  split; [float_bool|]. apply Qeq_bool_neq. float_bool.
Qed.

(** C2, amended.  For every positive length, breadth and storey count and
    every shape of the table, [calculate_gfa] returns the product of the
    exact integer length x breadth x storeys, converted to a double (which
    raises [OverflowError] when the integer is too large), and the stored
    multiplier: one binary64 multiplication and no other rounding.
    On every input of the form the result is the double nearest to the exact
    product with the decimal multiplier, or one of its two neighbours, and
    for the Rectangular shape it is that double itself.  Length 20, breadth
    15, 2 storeys, Rectangular yields 600. *)
Theorem calculate_gfa_binary64 :
  (∀ (l b s : Z) (shape : string) (m : float),
     (0 < l)%Z → (0 < b)%Z → (0 < s)%Z →
     Binary64.SHAPE_COMPLEXITY !! shape = Some m →
     Binary64.calculate_gfa l b s shape =
     (base ← Binary64.of_int (l * b * s); mret (base * m)%float)) ∧
  (∀ (l b s : Z) (shape : string) (mu : Q),
     (10 <= l <= 100)%Z → (10 <= b <= 100)%Z → (1 <= s <= 10)%Z →
     SHAPE_COMPLEXITY !! shape = Some mu →
     ∃ m f v,
       Binary64.SHAPE_COMPLEXITY !! shape = Some m ∧
       Binary64.of_int (l * b * s) = Ok f ∧
       Binary64.calculate_gfa l b s shape = Ok v ∧ v = (f * m)%float ∧
       let e := Binary64.nearest (l * b * s * Qnum mu) (Zpos (Qden mu)) in
       (next_down e <=? v)%float = true ∧ (v <=? next_up e)%float = true ∧
       (shape = "Rectangular" → (v =? e)%float = true)) ∧
  Binary64.calculate_gfa 20 15 2 "Rectangular" = Ok 600%float.
Proof.
  split; [|split].
  - intros l b s shape m _ _ _ H. apply binary64_calculate_gfa_Some, H.
  - intros l b s shape mu Hl Hb Hs Hmu.
    pose proof (form_footprint l b s Hl Hb Hs) as Harea.
    pose proof (gfa_check_range _ Harea) as Hchk.
    unfold Binary64.gfa_check in Hchk.
    do 5 (apply andb_prop in Hchk as [Hchk ?]).
    table_cases Hmu.
    + destruct (gfa_near_returns l b s "Rectangular" 1.0%float 10 10 Harea
                  eq_refl Hchk) as (f & v & Hf & Hv & Heq & Hlo & Hhi).
      exists 1.0%float, f, v. repeat (split; [assumption || reflexivity|]).
      intros _. subst v.
      assert (f = of_uint63 (Uint63.of_Z (l * b * s))) as ->.
      { unfold Binary64.of_int in Hf. rewrite of_int_small in Hf by lia.
        destruct (is_infinity _); [discriminate Hf|]. congruence. }
      match goal with H : Binary64.gfa_exact _ = true |- _ => exact H end.
    + destruct (gfa_near_returns l b s "Square" 1.05%float 105 100 Harea
                  eq_refl ltac:(assumption))
        as (f & v & Hf & Hv & Heq & Hlo & Hhi).
      exists 1.05%float, f, v. repeat (split; [assumption || reflexivity|]).
      discriminate.
    + destruct (gfa_near_returns l b s "L-Shaped" 1.15%float 115 100 Harea
                  eq_refl ltac:(assumption))
        as (f & v & Hf & Hv & Heq & Hlo & Hhi).
      exists 1.15%float, f, v. repeat (split; [assumption || reflexivity|]).
      discriminate.
    + destruct (gfa_near_returns l b s "U-Shaped" 1.2%float 12 10 Harea
                  eq_refl ltac:(assumption))
        as (f & v & Hf & Hv & Heq & Hlo & Hhi).
      exists 1.2%float, f, v. repeat (split; [assumption || reflexivity|]).
      discriminate.
    + destruct (gfa_near_returns l b s "Circular" 1.25%float 125 100 Harea
                  eq_refl ltac:(assumption))
        as (f & v & Hf & Hv & Heq & Hlo & Hhi).
      exists 1.25%float, f, v. repeat (split; [assumption || reflexivity|]).
      discriminate.
  - float_bool.
Qed.

Lemma calculate_gfa_binary64_witness :
  ((10 <= 12 <= 100)%Z ∧ (10 <= 17 <= 100)%Z ∧ (1 <= 3 <= 10)%Z) ∧
  SHAPE_COMPLEXITY !! "Square" = Some 1.05 ∧
  ∃ v, Binary64.calculate_gfa 12 17 3 "Square" = Ok v ∧
       (next_down (Binary64.nearest (12 * 17 * 3 * 105) 100) <=? v)%float
         = true ∧
       (v <=? next_up (Binary64.nearest (12 * 17 * 3 * 105) 100))%float
         = true.
Proof.
  assert (Hl : (10 <= 12 <= 100)%Z) by lia.
  assert (Hb : (10 <= 17 <= 100)%Z) by lia.
  assert (Hs : (1 <= 3 <= 10)%Z) by lia.
  assert (Hmu : SHAPE_COMPLEXITY !! "Square" = Some 1.05) by reflexivity.
  split; [repeat split; lia|]. split; [exact Hmu|].
  destruct (proj1 (proj2 calculate_gfa_binary64) 12%Z 17%Z 3%Z "Square" 1.05
              Hl Hb Hs Hmu)
    as (m & f & v & _ & _ & Hv & _ & Hlo & Hhi & _).
  exists v. split; [exact Hv|]. split; assumption.
Defined.

(** ** Site difficulty *)

Lemma binary64_site_difficulty_Some (soil access : string) (s a : float) :
  Binary64.soil_map !! soil = Some s →
  Binary64.access_map !! access = Some a →
  Binary64.calculate_site_difficulty soil access = Ok (s * a)%float.
Proof.
  intros Hs Ha. unfold Binary64.calculate_site_difficulty.
  rewrite (getitem_Some _ _ _ Hs), bind_Ok, (getitem_Some _ _ _ Ha).
  reflexivity.
Qed.

Lemma binary64_site_difficulty_Ok_inv (soil access : string) (v : float) :
  Binary64.calculate_site_difficulty soil access = Ok v →
  ∃ s a, Binary64.soil_map !! soil = Some s ∧
         Binary64.access_map !! access = Some a ∧ v = (s * a)%float.
Proof.
  unfold Binary64.calculate_site_difficulty, getitem. intros H.
  destruct (Binary64.soil_map !! soil) as [s|]; [|discriminate H].
  rewrite bind_Ok in H.
  destruct (Binary64.access_map !! access) as [a|]; [|discriminate H].
  rewrite bind_Ok in H. injection H as <-.
  exists s, a. repeat split; reflexivity.
Qed.

(** C6, as the claim states it, fails: for Rocky soil and Poor access the
    returned double is not the double 2.1, and the rational it stands for
    is not 2.1. *)
Lemma calculate_site_difficulty_rocky_poor_not_2_1 :
  ∃ v q,
    Binary64.calculate_site_difficulty "Rocky" "Poor" = Ok v ∧
    (v =? 2.1)%float = false ∧
    Binary64.to_Q v = Some q ∧ ¬ q == 2.1.
Proof.
  do 2 eexists. split; [float_bool|]. split; [float_bool|].
  split; [float_bool|]. apply Qeq_bool_neq. float_bool.
Qed.

(** C6, amended.  [calculate_site_difficulty] is a function of its two
    arguments alone.  The keys it accepts are exactly the soils Rocky 1.5,
    Sandy 1.2, Clay 1.0 and the accesses Poor 1.4, Average 1.1, Good 1.0,
    and on each pair it returns the binary64 product of the two multipliers.
    Rocky with Poor yields 2.0999999999999996, the double just below the
    double nearest 2.1 (in exact arithmetic 1.5 x 1.4 is 2.1). *)
Theorem calculate_site_difficulty_binary64 :
  (∀ (soil access : string) (s a : float),
     (soil, s) ∈ [("Rocky", 1.5%float); ("Sandy", 1.2%float);
                  ("Clay", 1.0%float)] →
     (access, a) ∈ [("Poor", 1.4%float); ("Average", 1.1%float);
                    ("Good", 1.0%float)] →
     Binary64.soil_map !! soil = Some s ∧
     Binary64.access_map !! access = Some a ∧
     Binary64.calculate_site_difficulty soil access = Ok (s * a)%float) ∧
  (∀ (soil : string) (s : float),
     Binary64.soil_map !! soil = Some s →
     (soil, s) ∈ [("Rocky", 1.5%float); ("Sandy", 1.2%float);
                  ("Clay", 1.0%float)]) ∧
  (∀ (access : string) (a : float),
     Binary64.access_map !! access = Some a →
     (access, a) ∈ [("Poor", 1.4%float); ("Average", 1.1%float);
                    ("Good", 1.0%float)]) ∧
  (∃ v, Binary64.calculate_site_difficulty "Rocky" "Poor" = Ok v ∧
        v = 2.0999999999999996%float ∧ next_up v = 2.1%float ∧
        (v <? 2.1)%float = true) ∧
  1.5 * 1.4 == 2.1.
Proof.
  split; [|split; [|split; [|split]]].
  - intros soil access s a Hs Ha.
    assert (Hs' : Binary64.soil_map !! soil = Some s).
    { repeat (apply elem_of_cons in Hs as [Hs|Hs];
              [injection Hs as -> ->; reflexivity|]).
      apply elem_of_nil in Hs. destruct Hs. }
    assert (Ha' : Binary64.access_map !! access = Some a).
    { repeat (apply elem_of_cons in Ha as [Ha|Ha];
              [injection Ha as -> ->; reflexivity|]).
      apply elem_of_nil in Ha. destruct Ha. }
    split; [exact Hs'|]. split; [exact Ha'|].
    apply binary64_site_difficulty_Some; assumption.
  - intros soil s H. apply elem_of_list_to_map_2 in H. exact H.
  - intros access a H. apply elem_of_list_to_map_2 in H. exact H.
  - eexists. split; [float_bool|]. split; [float_bool|].
    split; float_bool.
  - reflexivity.
Qed.

Lemma calculate_site_difficulty_binary64_witness :
  ("Sandy", 1.2%float) ∈ [("Rocky", 1.5%float); ("Sandy", 1.2%float);
                          ("Clay", 1.0%float)] ∧
  ("Average", 1.1%float) ∈ [("Poor", 1.4%float); ("Average", 1.1%float);
                            ("Good", 1.0%float)] ∧
  Binary64.calculate_site_difficulty "Sandy" "Average"
    = Ok (1.2 * 1.1)%float.
Proof.
  assert (Hs : ("Sandy", 1.2%float) ∈ [("Rocky", 1.5%float);
             ("Sandy", 1.2%float); ("Clay", 1.0%float)]).
  { apply list_elem_of_In. simpl. right. left. reflexivity. }
  assert (Ha : ("Average", 1.1%float) ∈ [("Poor", 1.4%float);
             ("Average", 1.1%float); ("Good", 1.0%float)]).
  { apply list_elem_of_In. simpl. right. left. reflexivity. }
  split; [exact Hs|]. split; [exact Ha|].
  exact (proj2 (proj2 (proj1 calculate_site_difficulty_binary64
                         "Sandy" "Average" 1.2%float 1.1%float Hs Ha))).
Defined.

(** X11.  Every value [calculate_site_difficulty] returns is a double from 1
    up to, but below, 2.1; it is 1 exactly for Clay soil with Good access
    and it is the largest, 2.0999999999999996, exactly for Rocky soil with
    Poor access. *)
Theorem calculate_site_difficulty_range_binary64 (soil access : string)
    (v : float) :
  Binary64.calculate_site_difficulty soil access = Ok v →
  (1 <=? v)%float = true ∧ (v <? 2.1)%float = true ∧
  (v <=? 2.0999999999999996)%float = true ∧
  ((v =? 1)%float = true ↔ soil = "Clay" ∧ access = "Good") ∧
  ((v =? 2.0999999999999996)%float = true ↔
   soil = "Rocky" ∧ access = "Poor").
Proof.
  intros H.
  destruct (binary64_site_difficulty_Ok_inv _ _ _ H)
    as (s & a & Hs & Ha & ->).
  table_cases Hs; table_cases Ha;
    (split; [float_bool|]; split; [float_bool|]; split; [float_bool|];
     split;
     (split;
      [intros Heq; first [split; reflexivity
                         | exfalso; vm_compute in Heq; discriminate Heq]
      |intros [Hs Ha]; first [discriminate Hs | discriminate Ha
                             | float_bool]])).
Qed.

Lemma calculate_site_difficulty_range_binary64_witness :
  ∃ v, Binary64.calculate_site_difficulty "Sandy" "Poor" = Ok v ∧
       (1 <=? v)%float = true ∧ (v <? 2.1)%float = true.
Proof.
  eexists. split; [float_bool|].
  match goal with
  | |- (_ <=? ?v)%float = true ∧ _ =>
      destruct (calculate_site_difficulty_range_binary64 "Sandy" "Poor" v)
        as (Hlo & Hhi & _)
  end; [float_bool|].
  split; assumption.
Defined.

(** ** Risk components *)



(** ** Labor hours *)

Lemma crew_size_key_cases (c : Z) :
  ((c <= 14)%Z ∧ crew_size_key c = "Small") ∨
  ((15 <= c <= 30)%Z ∧ crew_size_key c = "Medium") ∨
  ((30 < c)%Z ∧ crew_size_key c = "Large").
Proof.
  unfold crew_size_key.
  destruct (Z.leb_spec 15 c), (Z.leb_spec c 30), (Z.gtb_spec c 30); simpl;
    first [left; split; [lia|reflexivity]
          |right; left; split; [lia|reflexivity]
          |right; right; split; [lia|reflexivity]
          |lia].
Qed.

Lemma binary64_weather_cases (w : string) (we : float) :
  Binary64.weather_efficiency w = Ok we →
  (w, we) ∈ [("Good", 1.0%float); ("Average", 0.9%float);
             ("Poor", 0.8%float)].
Proof.
  unfold Binary64.weather_efficiency, getitem2.
  change (getitem Binary64.EFFICIENCY_FACTORS "weather")
    with (Ok (list_to_map [("Good", 1.0%float); ("Average", 0.9%float);
                           ("Poor", 0.8%float)] : gmap string float)).
  rewrite bind_Ok, getitem_Ok_iff. apply elem_of_list_to_map_2.
Qed.

(** X17.  In binary64, for every area (any double), every building type of
    the productivity table, every weather key of the weather table and
    every crew size, [calculate_labor_hours] returns the double
    sum([foundation, structural, finishing]) * gfa / (crew efficiency *
    weather efficiency) with the crew efficiency 0.9 up to 14 workers, 1.0
    from 15 to 30 and 1.1 above 30; the divisor is one of nine doubles, all
    at least 0.72, so the function never raises [ZeroDivisionError],
    whatever its arguments. *)
Theorem calculate_labor_hours_binary64 :
  (∀ (gfa : float) (bt : string) (c : Z) (w : string)
     (rates : gmap string float) (we : float),
     Binary64.LABOR_PRODUCTIVITY_RATES !! bt = Some rates →
     Binary64.weather_efficiency w = Ok we →
     ∃ f s fi ce,
       rates !! "foundation" = Some f ∧ rates !! "structural" = Some s ∧
       rates !! "finishing" = Some fi ∧
       Binary64.crew_efficiency c = Ok ce ∧
       ((c <= 14)%Z → ce = 0.9%float) ∧
       ((15 <= c <= 30)%Z → ce = 1.0%float) ∧
       ((30 < c)%Z → ce = 1.1%float) ∧
       (0.72 <=? ce * we)%float = true ∧
       Binary64.calculate_labor_hours gfa bt c w =
       Ok (Binary64.sum [f; s; fi] * gfa / (ce * we))%float) ∧
  (∀ (gfa : float) (bt : string) (c : Z) (w : string),
     Binary64.calculate_labor_hours gfa bt c w ≠ Raise ZeroDivisionError).
Proof.
  assert (Hmain : ∀ (gfa : float) (bt : string) (c : Z) (w : string)
     (rates : gmap string float) (we : float),
     Binary64.LABOR_PRODUCTIVITY_RATES !! bt = Some rates →
     Binary64.weather_efficiency w = Ok we →
     ∃ f s fi ce,
       rates !! "foundation" = Some f ∧ rates !! "structural" = Some s ∧
       rates !! "finishing" = Some fi ∧
       Binary64.crew_efficiency c = Ok ce ∧
       ((c <= 14)%Z → ce = 0.9%float) ∧
       ((15 <= c <= 30)%Z → ce = 1.0%float) ∧
       ((30 < c)%Z → ce = 1.1%float) ∧
       (0.72 <=? ce * we)%float = true ∧
       Binary64.calculate_labor_hours gfa bt c w =
       Ok (Binary64.sum [f; s; fi] * gfa / (ce * we))%float).
  { intros gfa bt c w rates we Hbt Hw.
    apply binary64_weather_cases in Hw.
    unfold Binary64.calculate_labor_hours, Binary64.crew_efficiency.
    destruct (crew_size_key_cases c) as [[Hc ->]|[[Hc ->]|[Hc ->]]];
      table_cases Hbt;
      repeat (apply elem_of_cons in Hw as [Hw|Hw];
              [injection Hw as -> ->;
               do 4 eexists;
               do 4 (split; [reflexivity|]);
               split; [intros; first [reflexivity|lia]|];
               split; [intros; first [reflexivity|lia]|];
               split; [intros; first [reflexivity|lia]|];
               split; reflexivity|]);
      apply elem_of_nil in Hw; destruct Hw. }
  split; [exact Hmain|].
  intros gfa bt c w.
  destruct (Binary64.LABOR_PRODUCTIVITY_RATES !! bt) as [rates|] eqn:Hbt.
  - destruct (Binary64.weather_efficiency w) as [we|e] eqn:Hw.
    + destruct (Hmain gfa bt c w rates we Hbt Hw)
        as (f & s & fi & ce & _ & _ & _ & _ & _ & _ & _ & _ & ->).
      discriminate.
    + assert (He : e = KeyError w).
      { unfold Binary64.weather_efficiency, getitem2, getitem in Hw.
        destruct (Binary64.EFFICIENCY_FACTORS !! "weather") as [t|] eqn:Et;
          [|vm_compute in Et; discriminate Et].
        rewrite bind_Ok in Hw. destruct (t !! w); congruence. }
      subst e.
      unfold Binary64.calculate_labor_hours, Binary64.crew_efficiency.
      rewrite Hw.
      destruct (crew_size_key_cases c) as [[Hc ->]|[[Hc ->]|[Hc ->]]];
        table_cases Hbt; discriminate.
  - unfold Binary64.calculate_labor_hours, getitem2.
    rewrite (getitem_None _ _ Hbt). discriminate.
Qed.

Lemma calculate_labor_hours_binary64_witness :
  ∃ h, Binary64.calculate_labor_hours 300 "Commercial" 10 "Average" = Ok h ∧
       h = 2222.222222222222%float.
Proof.
  destruct (proj1 calculate_labor_hours_binary64 300%float "Commercial"
              10%Z "Average" _ 0.9%float eq_refl eq_refl)
    as (f & s & fi & ce & Hf & Hs & Hfi & Hce & _ & _ & _ & _ & Hh).
  eexists. split; [vm_compute; reflexivity|]. vm_compute. reflexivity.
Defined.

(** ** The two readings of the tables *)

Lemma getitem2_Ok_inv {V : Type} (d : gmap string (gmap string V))
    (k1 k2 : string) (v : V) :
  getitem2 d k1 k2 = Ok v → ∃ t, d !! k1 = Some t ∧ t !! k2 = Some v.
Proof.
  unfold getitem2, getitem. destruct (d !! k1) as [t|]; [|discriminate].
  rewrite bind_Ok. destruct (t !! k2) eqn:E; [|discriminate].
  intros H. injection H as <-. exists t. split; [reflexivity|exact E].
Qed.

(** Each entry of a binary64 table is the double nearest to the decimal the
    exact table holds under the same key. *)
Lemma binary64_tables_round_exact_tables :
  (∀ (k : string) (q : Q),
     SHAPE_COMPLEXITY !! k = Some q →
     Binary64.SHAPE_COMPLEXITY !! k
       = Some (Binary64.nearest (Qnum q) (Zpos (Qden q)))) ∧
  (∀ (k : string) (q : Q),
     soil_map !! k = Some q →
     Binary64.soil_map !! k
       = Some (Binary64.nearest (Qnum q) (Zpos (Qden q)))) ∧
  (∀ (k : string) (q : Q),
     access_map !! k = Some q →
     Binary64.access_map !! k
       = Some (Binary64.nearest (Qnum q) (Zpos (Qden q)))) ∧
  (∀ (k : string) (q : Q),
     RISK_FACTORS !! k = Some q →
     Binary64.RISK_FACTORS !! k
       = Some (Binary64.nearest (Qnum q) (Zpos (Qden q)))) ∧
  (∀ (k1 k2 : string) (q : Q),
     getitem2 LABOR_PRODUCTIVITY_RATES k1 k2 = Ok q →
     getitem2 Binary64.LABOR_PRODUCTIVITY_RATES k1 k2
       = Ok (Binary64.nearest (Qnum q) (Zpos (Qden q)))) ∧
  (∀ (k1 k2 : string) (q : Q),
     getitem2 EFFICIENCY_FACTORS k1 k2 = Ok q →
     getitem2 Binary64.EFFICIENCY_FACTORS k1 k2
       = Ok (Binary64.nearest (Qnum q) (Zpos (Qden q)))).
Proof.
  repeat split.
  - intros k q H. table_cases H; float_bool.
  - intros k q H. table_cases H; float_bool.
  - intros k q H. table_cases H; float_bool.
  - intros k q H. table_cases H; float_bool.
  - intros k1 k2 q H. apply getitem2_Ok_inv in H as (t & Ht & H).
    table_cases Ht;
      repeat (apply lookup_insert_Some in H as [[<- <-]|[_ H]];
              [float_bool|]);
      rewrite lookup_empty in H; discriminate H.
  - intros k1 k2 q H. apply getitem2_Ok_inv in H as (t & Ht & H).
    table_cases Ht;
      repeat (apply lookup_insert_Some in H as [[<- <-]|[_ H]];
              [float_bool|]);
      rewrite lookup_empty in H; discriminate H.
Qed.
